(** * hyp_core_ctl: reservation of CPUs for the hypervisor

    A shallow embedding of [drivers/soc/qcom/hyp_core_ctl.c] and the
    properties of its reservation state machine.

    - A [cpumask_t] is a bitmap; it is modelled as a binary natural number
      whose bit [c] says whether CPU [c] is in the mask.  The cpumask
      helpers are the bit operations of [N].
    - [for_each_cpu] walks the CPU numbers below [nr_cpu_ids] in ascending
      order and reads the mask it iterates on at every step, as
      [cpumask_next] does.
    - The scheduler's isolation primitives and the hotplug state are not
      part of the driver.  One cycle of the state machine calls a primitive
      at most once per CPU, so the outcomes of the calls of one cycle are
      given as a function from the CPU number to the returned [int]; every
      cycle is given its own outcomes.  A cycle reads the hotplug state
      as one [cpu_online_mask]; hotplug transitions happen between
      cycles.  The calls themselves are recorded, in order, in a list of
      [event]s.
    - [the_hcd], the global pointer, is an [option]; dereferencing it when
      it is [NULL] is the outcome [NullDeref].
    - [Initcall.hyp_core_ctl_init] is the initialisation, as a function of
      what the kernel services it calls return. *)

From Stdlib Require Import NArith ZArith List Bool Lia String Sorted.
Import ListNotations.

Local Open Scope N_scope.

(** ** cpumask helpers *)

Definition cpumask_t := N.

Definition cpumask_clear : cpumask_t := 0.

Definition cpumask_set_cpu (cpu : N) (dst : cpumask_t) : cpumask_t :=
  N.setbit dst cpu.

Definition cpumask_clear_cpu (cpu : N) (dst : cpumask_t) : cpumask_t :=
  N.clearbit dst cpu.

Definition cpumask_test_cpu (cpu : N) (m : cpumask_t) : bool :=
  N.testbit m cpu.

(** Returns the old value of the bit and the mask with the bit cleared. *)
Definition cpumask_test_and_clear_cpu (cpu : N) (m : cpumask_t)
  : bool * cpumask_t :=
  (N.testbit m cpu, N.clearbit m cpu).

Definition cpumask_andnot (src1 src2 : cpumask_t) : cpumask_t :=
  N.ldiff src1 src2.

Definition cpumask_or (src1 src2 : cpumask_t) : cpumask_t :=
  N.lor src1 src2.

Definition cpumask_equal (a b : cpumask_t) : bool := N.eqb a b.

(** [cpu_online(cpu)] tests the bit of [cpu_online_mask]. *)
Definition cpu_online (cpu_online_mask : cpumask_t) (cpu : N) : bool :=
  N.testbit cpu_online_mask cpu.

(** A mask that only holds CPU numbers below [nr_cpu_ids]. *)
Definition cpumask_valid (nr_cpu_ids : nat) (m : cpumask_t) : Prop :=
  m < 2 ^ N.of_nat nr_cpu_ids.

(** [cpumask_subset(a, b)]: no bit of [a] is outside [b]. *)
Definition cpumask_subset (a b : cpumask_t) : Prop :=
  N.ldiff a b = 0.

(** [for_each_cpu(cpu, mask)]: the body runs for every CPU number below
    [nr_cpu_ids] whose bit is set in the mask when the walk reaches it. *)
Definition for_each_cpu {S : Type} (nr_cpu_ids : nat) (mask : S -> cpumask_t)
    (body : N -> S -> S) (s : S) : S :=
  fold_left
    (fun st i =>
       if N.testbit (mask st) (N.of_nat i) then body (N.of_nat i) st else st)
    (seq 0 nr_cpu_ids) s.

(** ** The driver's data *)

(** [struct hyp_core_ctl_data]; the spinlock and the task pointer carry no
    data of the state machine. *)
Record hyp_core_ctl_data := mk_hcd {
  pending : bool;
  reservation_enabled : bool;
  reserve_cpus : cpumask_t;
  our_isolated_cpus : cpumask_t;
  final_reserved_cpus : cpumask_t
}.

Definition set_pending (b : bool) (hcd : hyp_core_ctl_data) :=
  mk_hcd b (reservation_enabled hcd) (reserve_cpus hcd)
         (our_isolated_cpus hcd) (final_reserved_cpus hcd).

Definition set_reservation_enabled (b : bool) (hcd : hyp_core_ctl_data) :=
  mk_hcd (pending hcd) b (reserve_cpus hcd)
         (our_isolated_cpus hcd) (final_reserved_cpus hcd).

Definition set_our_isolated_cpus (m : cpumask_t) (hcd : hyp_core_ctl_data) :=
  mk_hcd (pending hcd) (reservation_enabled hcd) (reserve_cpus hcd)
         m (final_reserved_cpus hcd).

Definition set_final_reserved_cpus (m : cpumask_t) (hcd : hyp_core_ctl_data) :=
  mk_hcd (pending hcd) (reservation_enabled hcd) (reserve_cpus hcd)
         (our_isolated_cpus hcd) m.

(** Calls that leave the driver, in the order they are made. *)
Inductive event :=
| Isolate (cpu : N) (ret : Z)          (* sched_isolate_cpu(cpu) = ret *)
| Unisolate (cpu : N) (ret : Z)        (* sched_unisolate_cpu(cpu) = ret *)
| UnisolateUnlocked (cpu : N)          (* sched_unisolate_cpu_unlocked(cpu) *)
| WakeUpProcess.                       (* wake_up_process(the_hcd->task) *)

(** Outcome of code that dereferences [the_hcd] without a check. *)
Inductive outcome (A : Type) :=
| Done (a : A)
| NullDeref.
Arguments Done {A} a.
Arguments NullDeref {A}.

Definition EINVAL : Z := 22.
Definition EPERM : Z := 1.

(** ** The reservation engine *)

Section Engine.

Variable nr_cpu_ids : nat.

(** One turn of the loop of [hyp_core_ctl_undo_reservation]. *)
Definition undo_reservation_body (sched_unisolate_cpu : N -> Z) (cpu : N)
    (st : hyp_core_ctl_data * list event) : hyp_core_ctl_data * list event :=
  let '(hcd, tr) := st in
  let ret := sched_unisolate_cpu cpu in
  let tr := tr ++ [Unisolate cpu ret] in
  if (ret <? 0)%Z then (hcd, tr)
  else (set_our_isolated_cpus
          (cpumask_clear_cpu cpu (our_isolated_cpus hcd)) hcd, tr).

Definition hyp_core_ctl_undo_reservation (sched_unisolate_cpu : N -> Z)
    (hcd : hyp_core_ctl_data) : hyp_core_ctl_data * list event :=
  for_each_cpu nr_cpu_ids (fun st => our_isolated_cpus (fst st))
    (undo_reservation_body sched_unisolate_cpu) (hcd, []).

Definition finalize_reservation (hcd : hyp_core_ctl_data) (temp : cpumask_t)
  : hyp_core_ctl_data :=
  if cpumask_equal temp (final_reserved_cpus hcd) then hcd
  else set_final_reserved_cpus temp hcd.

(** The locals of [hyp_core_ctl_do_reservation] that live across its
    loop, with the calls made so far. *)
Record do_reservation_loop := mk_loop {
  l_hcd : hyp_core_ctl_data;
  l_offline_cpus : cpumask_t;
  l_trace : list event
}.

Definition do_reservation_body (cpu_online_mask : cpumask_t)
    (sched_isolate_cpu : N -> Z) (i : N) (st : do_reservation_loop)
  : do_reservation_loop :=
  if negb (cpu_online cpu_online_mask i) then
    mk_loop (l_hcd st) (cpumask_set_cpu i (l_offline_cpus st)) (l_trace st)
  else
    let ret := sched_isolate_cpu i in
    let tr := l_trace st ++ [Isolate i ret] in
    if (ret <? 0)%Z then mk_loop (l_hcd st) (l_offline_cpus st) tr
    else
      mk_loop (set_our_isolated_cpus
                 (cpumask_set_cpu i (our_isolated_cpus (l_hcd st)))
                 (l_hcd st))
              (l_offline_cpus st) tr.

Definition hyp_core_ctl_do_reservation (cpu_online_mask : cpumask_t)
    (sched_isolate_cpu : N -> Z) (hcd : hyp_core_ctl_data)
  : hyp_core_ctl_data * list event :=
  let offline_cpus := cpumask_clear in
  let iter_cpus :=
    cpumask_andnot (reserve_cpus hcd) (our_isolated_cpus hcd) in
  let st :=
    for_each_cpu nr_cpu_ids (fun _ => iter_cpus)
      (do_reservation_body cpu_online_mask sched_isolate_cpu)
      (mk_loop hcd offline_cpus []) in
  let temp_reserved_cpus :=
    cpumask_or (our_isolated_cpus (l_hcd st)) (l_offline_cpus st) in
  (finalize_reservation (l_hcd st) temp_reserved_cpus, l_trace st).

(** One turn of the [while (1)] of [hyp_core_ctl_thread], from the point
    where the thread runs again: it clears [pending], leaves when asked
    to stop, and runs the engine the enable flag selects. *)
Definition hyp_core_ctl_thread_cycle (kthread_should_stop : bool)
    (cpu_online_mask : cpumask_t)
    (sched_isolate_cpu sched_unisolate_cpu : N -> Z)
    (hcd : hyp_core_ctl_data) : hyp_core_ctl_data * list event :=
  let hcd := set_pending false hcd in
  if kthread_should_stop then (hcd, [])
  else if reservation_enabled hcd then
    hyp_core_ctl_do_reservation cpu_online_mask sched_isolate_cpu hcd
  else
    hyp_core_ctl_undo_reservation sched_unisolate_cpu hcd.

End Engine.

(** ** Hotplug callbacks and the enable attribute *)

Definition hyp_core_ctl_hp_offline (the_hcd : option hyp_core_ctl_data)
    (cpu : N) : Z * option hyp_core_ctl_data * list event :=
  match the_hcd with
  | None => (0%Z, the_hcd, [])
  | Some hcd =>
      if negb (reservation_enabled hcd) then (0%Z, the_hcd, [])
      else
        let '(was_set, m) :=
          cpumask_test_and_clear_cpu cpu (our_isolated_cpus hcd) in
        let hcd := set_our_isolated_cpus m hcd in
        if was_set then (0%Z, Some hcd, [UnisolateUnlocked cpu])
        else (0%Z, Some hcd, [])
  end.

Definition hyp_core_ctl_hp_online (the_hcd : option hyp_core_ctl_data)
    (cpu : N) : Z * option hyp_core_ctl_data * list event :=
  match the_hcd with
  | None => (0%Z, the_hcd, [])
  | Some hcd =>
      if negb (reservation_enabled hcd) then (0%Z, the_hcd, [])
      else if cpumask_test_cpu cpu (final_reserved_cpus hcd) then
        (0%Z, Some (set_pending true hcd), [WakeUpProcess])
      else (0%Z, the_hcd, [])
  end.

(** [hyp_core_ctl_enable] takes the lock of [the_hcd] first, whatever the
    pointer holds. *)
Definition hyp_core_ctl_enable (the_hcd : option hyp_core_ctl_data)
    (enable : bool) : outcome (hyp_core_ctl_data * list event) :=
  match the_hcd with
  | None => NullDeref
  | Some hcd =>
      if Bool.eqb enable (reservation_enabled hcd) then Done (hcd, [])
      else
        Done (set_pending true (set_reservation_enabled enable hcd),
              [WakeUpProcess])
  end.

(** The return of a [size_t] as [ssize_t], as [enable_store] does with
    [count]: both are 64 bits wide on the kernel this driver is built for,
    so the value is taken modulo 2^64 and a value at or above 2^63 comes
    back negative. *)
Definition ssize_of_size (count : Z) : Z :=
  let c := (count mod 2 ^ 64)%Z in
  if (c <? 2 ^ 63)%Z then c else (c - 2 ^ 64)%Z.

Section Sysfs.

(** [kstrtobool] of the kernel library: [None] when it returns a negative
    errno, otherwise the boolean it stores. *)
Variable kstrtobool : string -> option bool.

Definition enable_store (the_hcd : option hyp_core_ctl_data) (buf : string)
    (count : Z) : outcome (Z * option hyp_core_ctl_data * list event) :=
  match kstrtobool buf with
  | None => Done ((- EINVAL)%Z, the_hcd, [])
  | Some enable =>
      match hyp_core_ctl_enable the_hcd enable with
      | NullDeref => NullDeref
      | Done (hcd, tr) => Done (ssize_of_size count, Some hcd, tr)
      end
  end.

End Sysfs.

Definition newline : string := String (Ascii.ascii_of_nat 10) EmptyString.

(** [enable_show]: the return value and the text put in [buf]. *)
Definition enable_show (the_hcd : option hyp_core_ctl_data) : Z * string :=
  match the_hcd with
  | None => ((- EPERM)%Z, EmptyString)
  | Some hcd =>
      if reservation_enabled hcd then (2%Z, ("1" ++ newline)%string)
      else (2%Z, ("0" ++ newline)%string)
  end.

(** ** The controller in its environment *)

(** The object a successful [hyp_core_ctl_init] publishes in [the_hcd]:
    zeroed by [kzalloc], with [reserve_cpus] parsed from the configured
    list. *)
Definition hyp_core_ctl_init (reserve : cpumask_t) : hyp_core_ctl_data :=
  mk_hcd false false reserve 0 0.

(** The initialised controller ([the_hcd] points to [hcd]), the hotplug
    state of the CPUs and the calls made so far. *)
Record system := mk_system {
  hcd : hyp_core_ctl_data;
  cpu_online_mask : cpumask_t;
  log : list event
}.

(** What can happen to the controller.  The engine entries carry the
    outcomes the isolation primitives have in that cycle. *)
Inductive op :=
| ApplyReservation (sched_isolate_cpu : N -> Z)
| RevertReservation (sched_unisolate_cpu : N -> Z)
| WorkerCycle (sched_isolate_cpu sched_unisolate_cpu : N -> Z)
| SetEnabled (enable : bool)
| CpuOffline (cpu : N)
| CpuOnline (cpu : N).

Section Run.

Variable nr_cpu_ids : nat.

(** One operation on the initialised controller.  The engine runs on the
    current hotplug state; a hotplug transition updates [cpu_online_mask]
    and runs the callback registered for it. *)
Definition run_op (s : system) (o : op) : system :=
  match o with
  | ApplyReservation iso =>
      let '(h, tr) :=
        hyp_core_ctl_do_reservation nr_cpu_ids (cpu_online_mask s) iso
          (hcd s) in
      mk_system h (cpu_online_mask s) (log s ++ tr)
  | RevertReservation unis =>
      let '(h, tr) :=
        hyp_core_ctl_undo_reservation nr_cpu_ids unis (hcd s) in
      mk_system h (cpu_online_mask s) (log s ++ tr)
  | WorkerCycle iso unis =>
      let '(h, tr) :=
        hyp_core_ctl_thread_cycle nr_cpu_ids false (cpu_online_mask s)
          iso unis (hcd s) in
      mk_system h (cpu_online_mask s) (log s ++ tr)
  | SetEnabled enable =>
      match hyp_core_ctl_enable (Some (hcd s)) enable with
      | Done (h, tr) => mk_system h (cpu_online_mask s) (log s ++ tr)
      | NullDeref => s
      end
  | CpuOffline cpu =>
      match hyp_core_ctl_hp_offline (Some (hcd s)) cpu with
      | (_, Some h, tr) =>
          mk_system h (N.clearbit (cpu_online_mask s) cpu) (log s ++ tr)
      | (_, None, _) => s
      end
  | CpuOnline cpu =>
      match hyp_core_ctl_hp_online (Some (hcd s)) cpu with
      | (_, Some h, tr) =>
          mk_system h (N.setbit (cpu_online_mask s) cpu) (log s ++ tr)
      | (_, None, _) => s
      end
  end.

Definition run (s : system) (ops : list op) : system :=
  fold_left run_op ops s.

End Run.

(** The state the controller starts from. *)
Definition initial (reserve online : cpumask_t) : system :=
  mk_system (hyp_core_ctl_init reserve) online [].

(** The CPUs of [reserve_cpus] that are offline. *)
Definition offline_reserved (hcd : hyp_core_ctl_data)
    (cpu_online_mask : cpumask_t) : cpumask_t :=
  N.ldiff (reserve_cpus hcd) cpu_online_mask.

(** The CPUs of [reserve_cpus] that are online. *)
Definition online_reserved (hcd : hyp_core_ctl_data)
    (cpu_online_mask : cpumask_t) : cpumask_t :=
  N.land (reserve_cpus hcd) cpu_online_mask.

(** The calls [hyp_core_ctl_do_reservation] makes when it walks the CPUs
    below [k]: one per online CPU of [iter_cpus], in ascending order. *)
Definition isolate_calls (k : nat) (iter_cpus cpu_online_mask : cpumask_t)
    (sched_isolate_cpu : N -> Z) : list event :=
  flat_map
    (fun i =>
       if N.testbit iter_cpus (N.of_nat i)
          && N.testbit cpu_online_mask (N.of_nat i)
       then [Isolate (N.of_nat i) (sched_isolate_cpu (N.of_nat i))]
       else [])
    (seq 0 k).

(** The calls [hyp_core_ctl_undo_reservation] makes when it walks the CPUs
    below [k]: one per CPU of [our_isolated_cpus], in ascending order. *)
Definition unisolate_calls (k : nat) (isolated : cpumask_t)
    (sched_unisolate_cpu : N -> Z) : list event :=
  flat_map
    (fun i =>
       if N.testbit isolated (N.of_nat i)
       then [Unisolate (N.of_nat i) (sched_unisolate_cpu (N.of_nat i))]
       else [])
    (seq 0 k).

(** The loop of [hyp_core_ctl_do_reservation] over the CPUs below [k]. *)
Definition do_reservation_walk (k : nat) (cpu_online_mask : cpumask_t)
    (sched_isolate_cpu : N -> Z) (iter_cpus : cpumask_t)
    (hcd : hyp_core_ctl_data) : do_reservation_loop :=
  for_each_cpu k (fun _ => iter_cpus)
    (do_reservation_body cpu_online_mask sched_isolate_cpu)
    (mk_loop hcd cpumask_clear []).

(** The loop of [hyp_core_ctl_undo_reservation] over the CPUs below [k]. *)
Definition undo_reservation_walk (k : nat) (sched_unisolate_cpu : N -> Z)
    (hcd : hyp_core_ctl_data) : hyp_core_ctl_data * list event :=
  for_each_cpu k (fun st => our_isolated_cpus (fst st))
    (undo_reservation_body sched_unisolate_cpu) (hcd, []).

(** Outcomes used in the examples: every call succeeds, every call fails,
    only the call on CPU 2 fails. *)
Definition always_ok : N -> Z := fun _ => 0%Z.
Definition always_fail : N -> Z := fun _ => (-1)%Z.
Definition fail_on_2 : N -> Z := fun c => if c =? 2 then (-16)%Z else 0%Z.

(** [final_reserved_cpus] is [our_isolated_cpus] with the offline CPUs of
    [reserve_cpus]. *)
Definition final_reserved_consistent (s : system) : Prop :=
  final_reserved_cpus (hcd s) =
  N.lor (our_isolated_cpus (hcd s))
        (offline_reserved (hcd s) (cpu_online_mask s)).

(** A parser that takes the texts 1 and 0 only. *)
Definition kstrtobool_digits (s : string) : option bool :=
  if String.eqb s "1" then Some true
  else if String.eqb s "0" then Some false
  else None.

(** ** Initialisation *)

Definition ENOMEM : Z := 12.

Module Initcall.

(** The calls [hyp_core_ctl_init] makes outside the driver. *)
Inductive init_call :=
| Kzalloc
| CpulistParse
| KthreadRun
| SchedSetschedulerNocheck
| SysfsCreateGroup
| CpuhpSetupOnline       (* hyp_core_ctl_hp_online registered *)
| CpuhpSetupDead         (* hyp_core_ctl_hp_offline registered *)
| KthreadStop
| Kfree.

(** What [kthread_run] returns: an error pointer, with its [PTR_ERR], or
    the task of the started thread. *)
Inductive kthread_run_result :=
| TaskErr (ptr_err : Z)
| TaskStarted.

(** [hyp_core_ctl_init], given what the kernel services it calls return:
    whether [kzalloc] gave memory, the return value of [cpulist_parse] with
    the mask it wrote, the result of [kthread_run] and the return value of
    [sysfs_create_group].  The result is the return value, the value of
    [the_hcd] afterwards ([NULL] before the call) and the calls made. *)
Definition hyp_core_ctl_init (kzalloc_ok : bool)
    (cpulist_parse : Z * cpumask_t) (kthread_run : kthread_run_result)
    (sysfs_create_group : Z)
  : Z * option hyp_core_ctl_data * list init_call :=
  if negb kzalloc_ok then ((- ENOMEM)%Z, None, [Kzalloc])
  else
    let '(ret, reserve) := cpulist_parse in
    let hcd := mk_hcd false false reserve 0 0 in
    if (ret <? 0)%Z then (ret, None, [Kzalloc; CpulistParse; Kfree])
    else
      match kthread_run with
      | TaskErr ptr_err =>
          (ptr_err, None, [Kzalloc; CpulistParse; KthreadRun; Kfree])
      | TaskStarted =>
          let ret := sysfs_create_group in
          if (ret <? 0)%Z then
            (ret, None,
             [Kzalloc; CpulistParse; KthreadRun; SchedSetschedulerNocheck;
              SysfsCreateGroup; KthreadStop; Kfree])
          else
            (0%Z, Some hcd,
             [Kzalloc; CpulistParse; KthreadRun; SchedSetschedulerNocheck;
              SysfsCreateGroup; CpuhpSetupOnline; CpuhpSetupDead])
      end.

End Initcall.

(** ** Notions used in the statements *)

(** The CPUs of a mask below [nr_cpu_ids], in ascending order: the CPUs
    [for_each_cpu] visits on a mask that does not change. *)
Definition cpumask_cpus (nr_cpu_ids : nat) (m : cpumask_t) : list N :=
  filter (N.testbit m) (map N.of_nat (seq 0 nr_cpu_ids)).

(** [our_isolated_cpus] within [final_reserved_cpus] within [reserve_cpus],
    and no CPU number of the two outputs at or above [nr_cpu_ids]. *)
Definition masks_nested (nr_cpu_ids : nat) (hcd : hyp_core_ctl_data) : Prop :=
  cpumask_subset (our_isolated_cpus hcd) (final_reserved_cpus hcd) /\
  cpumask_subset (final_reserved_cpus hcd) (reserve_cpus hcd) /\
  cpumask_valid nr_cpu_ids (our_isolated_cpus hcd) /\
  cpumask_valid nr_cpu_ids (final_reserved_cpus hcd).

(** The engine an event belongs to: [Isolate] is only called by the
    reservation, [Unisolate] only by its undoing. *)
Definition event_of_engine (enabled : bool) (e : event) : bool :=
  match e with
  | Isolate _ _ => enabled
  | Unisolate _ _ => negb enabled
  | _ => false
  end.

(** * Properties *)

(** ** Bits *)

Lemma cpumask_valid_high (nr : nat) (m : cpumask_t) (j : N) :
  cpumask_valid nr m -> N.of_nat nr <= j -> N.testbit m j = false.
Proof.
  unfold cpumask_valid. intros Hm Hj.
  rewrite <- (N.mod_small m (2 ^ N.of_nat nr)) by exact Hm.
  apply N.mod_pow2_bits_high. exact Hj.
Qed.

Lemma cpumask_subset_spec (a b : cpumask_t) :
  cpumask_subset a b <->
  forall cpu, N.testbit a cpu = true -> N.testbit b cpu = true.
Proof.
  unfold cpumask_subset. split.
  - intros H cpu Ha.
    assert (Hb : N.testbit (N.ldiff a b) cpu = false)
      by (rewrite H; apply N.bits_0).
    rewrite N.ldiff_spec, Ha in Hb.
    destruct (N.testbit b cpu); [reflexivity | discriminate].
  - intros H. apply N.bits_inj. intros cpu.
    rewrite N.ldiff_spec, N.bits_0.
    destruct (N.testbit a cpu) eqn:Ha; [|reflexivity].
    now rewrite (H cpu Ha).
Qed.

Lemma for_each_cpu_S {S : Type} (k : nat) (mask : S -> cpumask_t)
    (body : N -> S -> S) (s : S) :
  for_each_cpu (Datatypes.S k) mask body s =
  let st := for_each_cpu k mask body s in
  if N.testbit (mask st) (N.of_nat k) then body (N.of_nat k) st else st.
Proof.
  unfold for_each_cpu. rewrite seq_S, fold_left_app. reflexivity.
Qed.

Lemma flat_map_seq_S {A : Type} (f : nat -> list A) (k : nat) :
  flat_map f (seq 0 (S k)) = flat_map f (seq 0 k) ++ f k.
Proof.
  rewrite seq_S, flat_map_app. simpl. rewrite app_nil_r. reflexivity.
Qed.

Lemma flat_map_all_nil {A B : Type} (f : A -> list B) (l : list A) :
  (forall x, In x l -> f x = []) -> flat_map f l = [].
Proof.
  induction l as [|a l IH]; intros H; [reflexivity|].
  cbn. rewrite (H a) by now left.
  apply IH. intros x Hx. apply H. now right.
Qed.

Section DoLoop.

Variables (online : cpumask_t) (iso : N -> Z) (h : hyp_core_ctl_data).
Variable iter : cpumask_t.

Lemma do_loop_spec (k : nat) :
  pending (l_hcd (do_reservation_walk k online iso iter h)) = pending h /\
  reservation_enabled (l_hcd (do_reservation_walk k online iso iter h)) =
  reservation_enabled h /\
  reserve_cpus (l_hcd (do_reservation_walk k online iso iter h)) =
  reserve_cpus h /\
  final_reserved_cpus (l_hcd (do_reservation_walk k online iso iter h)) =
  final_reserved_cpus h /\
  (forall j,
      N.testbit
        (our_isolated_cpus
           (l_hcd (do_reservation_walk k online iso iter h))) j =
      N.testbit (our_isolated_cpus h) j
      || ((j <? N.of_nat k) && N.testbit iter j && N.testbit online j
          && (0 <=? iso j)%Z)) /\
  (forall j,
      N.testbit (l_offline_cpus (do_reservation_walk k online iso iter h)) j =
      (j <? N.of_nat k) && N.testbit iter j
      && negb (N.testbit online j)) /\
  l_trace (do_reservation_walk k online iso iter h) =
  isolate_calls k iter online iso.
Proof.
  induction k as [|k IH].
  - cbn. repeat split; intros; try reflexivity.
    + rewrite (proj2 (N.ltb_ge j 0)) by lia. cbn. now rewrite orb_false_r.
    + rewrite (proj2 (N.ltb_ge j 0)) by lia. now destruct j.
  - destruct IH as (Hp & He & Hr & Hf & Hi & Ho & Ht).
    unfold do_reservation_walk in *. rewrite for_each_cpu_S. cbv zeta.
    set (st := for_each_cpu k (fun _ => iter)
                 (do_reservation_body online iso)
                 (mk_loop h cpumask_clear [])) in *.
    unfold isolate_calls in *. rewrite flat_map_seq_S.
    fold (isolate_calls k iter online iso) in *.
    assert (Hlt : forall j, (j <? N.of_nat (S k)) =
                            (j <? N.of_nat k) || (j =? N.of_nat k)).
    { intros j. destruct (N.ltb_spec j (N.of_nat (S k))),
        (N.ltb_spec j (N.of_nat k)), (N.eqb_spec j (N.of_nat k));
        try reflexivity; lia. }
    destruct (N.testbit iter (N.of_nat k)) eqn:Hik.
    + unfold do_reservation_body, cpu_online.
      destruct (N.testbit online (N.of_nat k)) eqn:Hok; cbn [negb andb].
      * destruct (iso (N.of_nat k) <? 0)%Z eqn:Hret; cbn.
        -- repeat split; try assumption.
           ++ intros j. rewrite Hi, Hlt.
              destruct (N.eqb_spec j (N.of_nat k)) as [->|];
                [|now rewrite orb_false_r].
              rewrite Hik, Hok.
              replace (0 <=? iso (N.of_nat k))%Z with false by lia.
              now rewrite !andb_false_r.
           ++ intros j. rewrite Ho, Hlt.
              destruct (N.eqb_spec j (N.of_nat k)) as [->|];
                [|now rewrite orb_false_r].
              rewrite Hok. cbn. now rewrite !andb_false_r.
           ++ now rewrite Ht.
        -- repeat split; try assumption.
           ++ intros j. unfold cpumask_set_cpu.
              rewrite N.setbit_eqb, Hi, Hlt, (N.eqb_sym (N.of_nat k) j).
              destruct (N.eqb_spec j (N.of_nat k)) as [->|].
              ** rewrite Hik, Hok.
                 replace (0 <=? iso (N.of_nat k))%Z with true by lia.
                 cbn. now rewrite !orb_true_r.
              ** now rewrite orb_false_r.
           ++ intros j. rewrite Ho, Hlt.
              destruct (N.eqb_spec j (N.of_nat k)) as [->|];
                [|now rewrite orb_false_r].
              rewrite Hok. cbn. now rewrite !andb_false_r.
           ++ now rewrite Ht.
      * cbn. repeat split; try assumption.
        -- intros j. rewrite Hi, Hlt.
           destruct (N.eqb_spec j (N.of_nat k)) as [->|];
             [|now rewrite orb_false_r].
           rewrite Hok. cbn. now rewrite !andb_false_r.
        -- intros j. unfold cpumask_set_cpu.
           rewrite N.setbit_eqb, Ho, Hlt, (N.eqb_sym (N.of_nat k) j).
           destruct (N.eqb_spec j (N.of_nat k)) as [->|].
           ++ rewrite Hik, Hok. cbn. now rewrite orb_true_r.
           ++ now rewrite orb_false_r.
        -- now rewrite Ht, app_nil_r.
    + repeat split; try assumption.
      * intros j. rewrite Hi, Hlt.
        destruct (N.eqb_spec j (N.of_nat k)) as [->|];
          [|now rewrite orb_false_r].
        rewrite Hik. cbn. now rewrite !andb_false_r.
      * intros j. rewrite Ho, Hlt.
        destruct (N.eqb_spec j (N.of_nat k)) as [->|];
          [|now rewrite orb_false_r].
        rewrite Hik. cbn. now rewrite !andb_false_r.
      * now rewrite Ht, app_nil_r.
Qed.

End DoLoop.

Section UndoLoop.

Variables (unis : N -> Z) (h : hyp_core_ctl_data).

Lemma undo_loop_spec (k : nat) :
  pending (fst (undo_reservation_walk k unis h)) = pending h /\
  reservation_enabled (fst (undo_reservation_walk k unis h)) =
  reservation_enabled h /\
  reserve_cpus (fst (undo_reservation_walk k unis h)) = reserve_cpus h /\
  final_reserved_cpus (fst (undo_reservation_walk k unis h)) =
  final_reserved_cpus h /\
  (forall j,
      N.testbit (our_isolated_cpus (fst (undo_reservation_walk k unis h))) j =
      N.testbit (our_isolated_cpus h) j
      && negb ((j <? N.of_nat k) && (0 <=? unis j)%Z)) /\
  snd (undo_reservation_walk k unis h) =
  unisolate_calls k (our_isolated_cpus h) unis.
Proof.
  induction k as [|k IH].
  - cbn. repeat split; intros; try reflexivity.
    rewrite (proj2 (N.ltb_ge j 0)) by lia. cbn. now rewrite andb_true_r.
  - destruct IH as (Hp & He & Hr & Hf & Hi & Ht).
    unfold undo_reservation_walk in *. rewrite for_each_cpu_S. cbv zeta.
    set (st := for_each_cpu k (fun st => our_isolated_cpus (fst st))
                 (undo_reservation_body unis) (h, [])) in *.
    unfold unisolate_calls in *. rewrite flat_map_seq_S.
    fold (unisolate_calls k (our_isolated_cpus h) unis) in *.
    assert (Hlt : forall j, (j <? N.of_nat (S k)) =
                            (j <? N.of_nat k) || (j =? N.of_nat k)).
    { intros j. destruct (N.ltb_spec j (N.of_nat (S k))),
        (N.ltb_spec j (N.of_nat k)), (N.eqb_spec j (N.of_nat k));
        try reflexivity; lia. }
    assert (Hk : N.testbit (our_isolated_cpus (fst st)) (N.of_nat k) =
                 N.testbit (our_isolated_cpus h) (N.of_nat k)).
    { rewrite Hi, N.ltb_irrefl. cbn. now rewrite andb_true_r. }
    rewrite Hk.
    destruct (N.testbit (our_isolated_cpus h) (N.of_nat k)) eqn:Hik.
    + destruct st as [h1 tr1]. cbn [fst snd] in *.
      unfold undo_reservation_body.
      destruct (unis (N.of_nat k) <? 0)%Z eqn:Hret; cbn.
      * repeat split; try assumption.
        -- intros j. rewrite Hi, Hlt.
           destruct (N.eqb_spec j (N.of_nat k)) as [->|];
             [|now rewrite orb_false_r].
           replace (0 <=? unis (N.of_nat k))%Z with false by lia.
           now rewrite !andb_false_r.
        -- now rewrite Ht.
      * repeat split; try assumption.
        -- intros j. unfold cpumask_clear_cpu.
           rewrite N.clearbit_eqb, Hi, Hlt, (N.eqb_sym (N.of_nat k) j).
           destruct (N.eqb_spec j (N.of_nat k)) as [->|].
           ++ replace (0 <=? unis (N.of_nat k))%Z with true by lia.
              rewrite orb_true_r. cbn. now rewrite !andb_false_r.
           ++ now rewrite orb_false_r, andb_true_r.
        -- now rewrite Ht.
    + repeat split; try assumption.
      * intros j. rewrite Hi, Hlt.
        destruct (N.eqb_spec j (N.of_nat k)) as [->|];
          [|now rewrite orb_false_r].
        now rewrite Hik.
      * now rewrite Ht, app_nil_r.
Qed.

End UndoLoop.

(** ** The engine, call by call *)

Lemma finalize_reservation_final (h : hyp_core_ctl_data) (temp : cpumask_t) :
  final_reserved_cpus (finalize_reservation h temp) = temp.
Proof.
  unfold finalize_reservation, cpumask_equal.
  destruct (N.eqb_spec temp (final_reserved_cpus h)) as [->|]; reflexivity.
Qed.

Lemma finalize_reservation_frame (h : hyp_core_ctl_data) (temp : cpumask_t) :
  pending (finalize_reservation h temp) = pending h /\
  reservation_enabled (finalize_reservation h temp) = reservation_enabled h /\
  reserve_cpus (finalize_reservation h temp) = reserve_cpus h /\
  our_isolated_cpus (finalize_reservation h temp) = our_isolated_cpus h.
Proof.
  unfold finalize_reservation.
  destruct (cpumask_equal temp (final_reserved_cpus h)); repeat split.
Qed.

Section EngineFacts.

Variable nr_cpu_ids : nat.

Lemma do_reservation_frame online iso h :
  let h' := fst (hyp_core_ctl_do_reservation nr_cpu_ids online iso h) in
  pending h' = pending h /\
  reservation_enabled h' = reservation_enabled h /\
  reserve_cpus h' = reserve_cpus h.
Proof.
  cbv zeta. unfold hyp_core_ctl_do_reservation. cbn [fst].
  match goal with
  | |- context [finalize_reservation ?a ?b] =>
      destruct (finalize_reservation_frame a b) as (-> & -> & -> & _)
  end.
  destruct (do_loop_spec online iso h
              (cpumask_andnot (reserve_cpus h) (our_isolated_cpus h))
              nr_cpu_ids) as (Hp & He & Hr & _).
  auto.
Qed.

Lemma do_reservation_isolated online iso h j :
  N.testbit
    (our_isolated_cpus
       (fst (hyp_core_ctl_do_reservation nr_cpu_ids online iso h))) j =
  N.testbit (our_isolated_cpus h) j
  || ((j <? N.of_nat nr_cpu_ids) && N.testbit (reserve_cpus h) j
      && N.testbit online j && (0 <=? iso j)%Z).
Proof.
  unfold hyp_core_ctl_do_reservation. cbn [fst].
  match goal with
  | |- context [finalize_reservation ?a ?b] =>
      destruct (finalize_reservation_frame a b) as (_ & _ & _ & ->)
  end.
  destruct (do_loop_spec online iso h
              (cpumask_andnot (reserve_cpus h) (our_isolated_cpus h))
              nr_cpu_ids) as (_ & _ & _ & _ & Hi & _).
  rewrite Hi. unfold cpumask_andnot. rewrite N.ldiff_spec.
  destruct (N.testbit (our_isolated_cpus h) j); cbn; [reflexivity|].
  now rewrite andb_true_r.
Qed.

Lemma do_reservation_final online iso h j :
  N.testbit
    (final_reserved_cpus
       (fst (hyp_core_ctl_do_reservation nr_cpu_ids online iso h))) j =
  N.testbit
    (our_isolated_cpus
       (fst (hyp_core_ctl_do_reservation nr_cpu_ids online iso h))) j
  || ((j <? N.of_nat nr_cpu_ids) && N.testbit (reserve_cpus h) j
      && negb (N.testbit (our_isolated_cpus h) j)
      && negb (N.testbit online j)).
Proof.
  unfold hyp_core_ctl_do_reservation. cbn [fst].
  rewrite finalize_reservation_final.
  match goal with
  | |- context [our_isolated_cpus (finalize_reservation ?a ?b)] =>
      destruct (finalize_reservation_frame a b) as (_ & _ & _ & ->)
  end.
  destruct (do_loop_spec online iso h
              (cpumask_andnot (reserve_cpus h) (our_isolated_cpus h))
              nr_cpu_ids) as (_ & _ & _ & _ & _ & Ho & _).
  unfold cpumask_or. rewrite N.lor_spec, Ho.
  unfold cpumask_andnot. rewrite N.ldiff_spec.
  now rewrite !andb_assoc.
Qed.

Lemma do_reservation_trace online iso h :
  snd (hyp_core_ctl_do_reservation nr_cpu_ids online iso h) =
  isolate_calls nr_cpu_ids
    (cpumask_andnot (reserve_cpus h) (our_isolated_cpus h)) online iso.
Proof.
  unfold hyp_core_ctl_do_reservation. cbn [snd].
  apply (do_loop_spec online iso h).
Qed.

Lemma undo_reservation_frame unis h :
  let h' := fst (hyp_core_ctl_undo_reservation nr_cpu_ids unis h) in
  pending h' = pending h /\
  reservation_enabled h' = reservation_enabled h /\
  reserve_cpus h' = reserve_cpus h /\
  final_reserved_cpus h' = final_reserved_cpus h.
Proof.
  cbv zeta. unfold hyp_core_ctl_undo_reservation.
  destruct (undo_loop_spec unis h nr_cpu_ids) as (Hp & He & Hr & Hf & _).
  auto.
Qed.

Lemma undo_reservation_isolated unis h j :
  N.testbit
    (our_isolated_cpus
       (fst (hyp_core_ctl_undo_reservation nr_cpu_ids unis h))) j =
  N.testbit (our_isolated_cpus h) j
  && negb ((j <? N.of_nat nr_cpu_ids) && (0 <=? unis j)%Z).
Proof.
  unfold hyp_core_ctl_undo_reservation.
  apply (undo_loop_spec unis h nr_cpu_ids).
Qed.

Lemma undo_reservation_trace unis h :
  snd (hyp_core_ctl_undo_reservation nr_cpu_ids unis h) =
  unisolate_calls nr_cpu_ids (our_isolated_cpus h) unis.
Proof.
  unfold hyp_core_ctl_undo_reservation.
  apply (undo_loop_spec unis h nr_cpu_ids).
Qed.

Lemma in_isolate_calls k iter online iso e :
  In e (isolate_calls k iter online iso) <->
  exists c, e = Isolate c (iso c) /\ c < N.of_nat k /\
            N.testbit iter c = true /\ N.testbit online c = true.
Proof.
  unfold isolate_calls. rewrite in_flat_map. split.
  - intros (i & Hin & He). apply in_seq in Hin.
    destruct (N.testbit iter (N.of_nat i)) eqn:Hi; cbn in He; [|tauto].
    destruct (N.testbit online (N.of_nat i)) eqn:Ho; cbn in He; [|tauto].
    destruct He as [<-|[]]. exists (N.of_nat i). repeat split; auto. lia.
  - intros (c & -> & Hc & Hi & Ho). exists (N.to_nat c).
    rewrite N2Nat.id, Hi, Ho. split; [apply in_seq; lia | now left].
Qed.

Lemma in_unisolate_calls k isolated unis e :
  In e (unisolate_calls k isolated unis) <->
  exists c, e = Unisolate c (unis c) /\ c < N.of_nat k /\
            N.testbit isolated c = true.
Proof.
  unfold unisolate_calls. rewrite in_flat_map. split.
  - intros (i & Hin & He). apply in_seq in Hin.
    destruct (N.testbit isolated (N.of_nat i)) eqn:Hi; cbn in He; [|tauto].
    destruct He as [<-|[]]. exists (N.of_nat i). repeat split; auto. lia.
  - intros (c & -> & Hc & Hi). exists (N.to_nat c).
    rewrite N2Nat.id, Hi. split; [apply in_seq; lia | now left].
Qed.

End EngineFacts.

Lemma hcd_ext (a b : hyp_core_ctl_data) :
  pending a = pending b ->
  reservation_enabled a = reservation_enabled b ->
  reserve_cpus a = reserve_cpus b ->
  our_isolated_cpus a = our_isolated_cpus b ->
  final_reserved_cpus a = final_reserved_cpus b ->
  a = b.
Proof.
  destruct a, b. cbn. intros; subst; reflexivity.
Qed.

Lemma isolate_calls_nil k iter online iso :
  (forall c, c < N.of_nat k -> N.testbit iter c = true ->
             N.testbit online c = false) ->
  isolate_calls k iter online iso = [].
Proof.
  intros H. destruct (isolate_calls k iter online iso) as [|e l] eqn:E;
    [reflexivity|].
  assert (Hin : In e (isolate_calls k iter online iso))
    by (rewrite E; now left).
  apply in_isolate_calls in Hin. destruct Hin as (c & _ & Hc & Hi & Ho).
  rewrite (H c Hc Hi) in Ho. discriminate.
Qed.

(** When every online CPU of [reserve_cpus] is already isolated and
    [final_reserved_cpus] holds what the last cycle computed, a cycle calls
    nothing and writes nothing. *)
Lemma do_reservation_settled nr online iso h :
  (forall j, j < N.of_nat nr -> N.testbit (reserve_cpus h) j = true ->
             N.testbit online j = true ->
             N.testbit (our_isolated_cpus h) j = true) ->
  (forall j, N.testbit (final_reserved_cpus h) j =
             N.testbit (our_isolated_cpus h) j
             || ((j <? N.of_nat nr) && N.testbit (reserve_cpus h) j
                 && negb (N.testbit (our_isolated_cpus h) j)
                 && negb (N.testbit online j))) ->
  hyp_core_ctl_do_reservation nr online iso h = (h, []).
Proof.
  intros Hiso Hfin.
  assert (Hi : our_isolated_cpus
                 (fst (hyp_core_ctl_do_reservation nr online iso h)) =
               our_isolated_cpus h).
  { apply N.bits_inj. intros j. rewrite do_reservation_isolated.
    destruct (N.testbit (our_isolated_cpus h) j) eqn:Hj; [reflexivity|].
    cbn. destruct (N.ltb_spec j (N.of_nat nr)); [|reflexivity].
    destruct (N.testbit (reserve_cpus h) j) eqn:Hr; [|reflexivity].
    destruct (N.testbit online j) eqn:Ho; [|reflexivity].
    rewrite (Hiso j) in Hj by assumption. discriminate. }
  destruct (do_reservation_frame nr online iso h) as (Hp & He & Hr).
  apply injective_projections.
  - apply hcd_ext; try assumption. cbn [fst].
    apply N.bits_inj. intros j.
    rewrite do_reservation_final, Hi, Hfin. reflexivity.
  - cbn [snd]. rewrite do_reservation_trace. apply isolate_calls_nil.
    intros c Hc Hic. unfold cpumask_andnot in Hic.
    rewrite N.ldiff_spec in Hic. apply andb_true_iff in Hic.
    destruct Hic as [Hrc Hnc].
    destruct (N.testbit online c) eqn:Ho; [|reflexivity].
    rewrite (Hiso c Hc Hrc Ho) in Hnc. discriminate.
Qed.

(** The state a cycle leaves when none of its isolate calls failed is
    settled. *)
Lemma do_reservation_twice nr online iso iso' h :
  (forall c r,
      In (Isolate c r) (snd (hyp_core_ctl_do_reservation nr online iso h)) ->
      (0 <= r)%Z) ->
  hyp_core_ctl_do_reservation nr online iso'
    (fst (hyp_core_ctl_do_reservation nr online iso h)) =
  (fst (hyp_core_ctl_do_reservation nr online iso h), []).
Proof.
  intros Hok.
  destruct (do_reservation_frame nr online iso h) as (_ & _ & Hr).
  cbv zeta in Hr.
  apply do_reservation_settled.
  - intros j Hj Hrj Hoj. rewrite Hr in Hrj.
    rewrite do_reservation_isolated.
    destruct (N.testbit (our_isolated_cpus h) j) eqn:Hij; [reflexivity|].
    cbn. rewrite (proj2 (N.ltb_lt _ _) Hj), Hrj, Hoj. cbn.
    apply Z.leb_le. apply (Hok j).
    rewrite do_reservation_trace. apply in_isolate_calls.
    exists j. repeat split; auto.
    unfold cpumask_andnot. now rewrite N.ldiff_spec, Hrj, Hij.
  - intros j. rewrite do_reservation_final, Hr.
    destruct (N.testbit
                (our_isolated_cpus
                   (fst (hyp_core_ctl_do_reservation nr online iso h))) j)
      eqn:Hij; [reflexivity|].
    rewrite do_reservation_isolated in Hij.
    apply orb_false_iff in Hij. destruct Hij as [-> _]. reflexivity.
Qed.

(** ** Invariant of the reachable states *)

Lemma run_op_isolated_origin nr s o c :
  N.testbit (our_isolated_cpus (hcd (run_op nr s o))) c = true ->
  N.testbit (our_isolated_cpus (hcd s)) c = true \/
  N.testbit (reserve_cpus (hcd s)) c = true.
Proof.
  destruct s as [h online lg]. cbn [hcd cpu_online_mask log].
  destruct o as [iso|unis|iso unis|enable|cpu|cpu];
    cbn [run_op hcd cpu_online_mask log].
  - rewrite (surjective_pairing (hyp_core_ctl_do_reservation _ _ _ _)).
    cbn [hcd]. rewrite do_reservation_isolated.
    intros H. apply orb_true_iff in H. destruct H as [H|H]; [now left|].
    right. apply andb_true_iff in H. destruct H as [H _].
    apply andb_true_iff in H. destruct H as [H _].
    apply andb_true_iff in H. tauto.
  - rewrite (surjective_pairing (hyp_core_ctl_undo_reservation _ _ _)).
    cbn [hcd]. rewrite undo_reservation_isolated.
    intros H. apply andb_true_iff in H. tauto.
  - unfold hyp_core_ctl_thread_cycle. cbn [reservation_enabled set_pending].
    destruct (reservation_enabled h).
    + rewrite (surjective_pairing (hyp_core_ctl_do_reservation _ _ _ _)).
      cbn [hcd]. rewrite do_reservation_isolated. cbn.
      intros H. apply orb_true_iff in H. destruct H as [H|H]; [now left|].
      right. apply andb_true_iff in H. destruct H as [H _].
      apply andb_true_iff in H. destruct H as [H _].
      apply andb_true_iff in H. tauto.
    + rewrite (surjective_pairing (hyp_core_ctl_undo_reservation _ _ _)).
      cbn [hcd]. rewrite undo_reservation_isolated. cbn.
      intros H. apply andb_true_iff in H. tauto.
  - unfold hyp_core_ctl_enable.
    destruct (Bool.eqb enable (reservation_enabled h)); cbn; tauto.
  - unfold hyp_core_ctl_hp_offline, cpumask_test_and_clear_cpu.
    destruct (reservation_enabled h); cbn; [|tauto].
    destruct (N.testbit (our_isolated_cpus h) cpu) eqn:E; cbn;
      rewrite N.clearbit_eqb; intros H; apply andb_true_iff in H; tauto.
  - unfold hyp_core_ctl_hp_online.
    destruct (reservation_enabled h); cbn; [|tauto].
    destruct (cpumask_test_cpu cpu (final_reserved_cpus h)); cbn; tauto.
Qed.

Lemma run_op_reserve_cpus nr s o :
  reserve_cpus (hcd (run_op nr s o)) = reserve_cpus (hcd s).
Proof.
  destruct s as [h online lg]. cbn [hcd cpu_online_mask log].
  destruct o as [iso|unis|iso unis|enable|cpu|cpu];
    cbn [run_op hcd cpu_online_mask log].
  - rewrite (surjective_pairing (hyp_core_ctl_do_reservation _ _ _ _)).
    cbn [hcd]. apply do_reservation_frame.
  - rewrite (surjective_pairing (hyp_core_ctl_undo_reservation _ _ _)).
    cbn [hcd]. apply undo_reservation_frame.
  - unfold hyp_core_ctl_thread_cycle. cbn [reservation_enabled set_pending].
    destruct (reservation_enabled h).
    + rewrite (surjective_pairing (hyp_core_ctl_do_reservation _ _ _ _)).
      cbn [hcd].
      match goal with
      | |- context [hyp_core_ctl_do_reservation ?n ?a ?b ?c] =>
          destruct (do_reservation_frame n a b c) as (_ & _ & ->)
      end. reflexivity.
    + rewrite (surjective_pairing (hyp_core_ctl_undo_reservation _ _ _)).
      cbn [hcd].
      match goal with
      | |- context [hyp_core_ctl_undo_reservation ?n ?a ?b] =>
          destruct (undo_reservation_frame n a b) as (_ & _ & -> & _)
      end. reflexivity.
  - unfold hyp_core_ctl_enable.
    destruct (Bool.eqb enable (reservation_enabled h)); reflexivity.
  - unfold hyp_core_ctl_hp_offline, cpumask_test_and_clear_cpu.
    destruct (reservation_enabled h); cbn; [|reflexivity].
    destruct (N.testbit (our_isolated_cpus h) cpu); reflexivity.
  - unfold hyp_core_ctl_hp_online.
    destruct (reservation_enabled h); cbn; [|reflexivity].
    destruct (cpumask_test_cpu cpu (final_reserved_cpus h)); reflexivity.
Qed.

Lemma run_snoc nr s ops o :
  run nr s (ops ++ [o]) = run_op nr (run nr s ops) o.
Proof.
  unfold run. rewrite fold_left_app. reflexivity.
Qed.

(** ** The reservation invariants *)

(** C1, as stated, fails: with CPUs 0..3 online and [reserve_cpus] = {2,3},
    enabling the reservation, letting the worker isolate both CPUs,
    disabling it and letting the worker undo the reservation leaves
    [our_isolated_cpus] empty and no reserved CPU offline, while
    [final_reserved_cpus] is still {2,3}. *)
Lemma final_reserved_stale_after_undo :
  hcd (run 4 (initial 12 15)
         [SetEnabled true; WorkerCycle always_ok always_ok;
          SetEnabled false; WorkerCycle always_ok always_ok]) =
  mk_hcd false false 12 0 12 /\
  ~ final_reserved_consistent
      (run 4 (initial 12 15)
         [SetEnabled true; WorkerCycle always_ok always_ok;
          SetEnabled false; WorkerCycle always_ok always_ok]).
Proof.
  split; [reflexivity|].
  unfold final_reserved_consistent. vm_compute. discriminate.
Qed.

(** C1 (amended): in the state [hyp_core_ctl_do_reservation] returns,
    [final_reserved_cpus] is [our_isolated_cpus] together with the CPUs of
    [reserve_cpus] that were offline in that cycle, whatever the state the
    cycle started from and whatever the isolate calls returned. *)
Theorem do_reservation_final_reserved_cpus nr online iso h :
  cpumask_valid nr (reserve_cpus h) ->
  final_reserved_consistent
    (mk_system (fst (hyp_core_ctl_do_reservation nr online iso h)) online
               (snd (hyp_core_ctl_do_reservation nr online iso h))).
Proof.
  intros Hv. unfold final_reserved_consistent, offline_reserved.
  cbn [hcd cpu_online_mask].
  destruct (do_reservation_frame nr online iso h) as (_ & _ & Hr).
  cbv zeta in Hr. rewrite Hr.
  apply N.bits_inj. intros j.
  rewrite do_reservation_final, N.lor_spec, N.ldiff_spec.
  destruct (N.testbit
              (our_isolated_cpus
                 (fst (hyp_core_ctl_do_reservation nr online iso h))) j)
    eqn:Hij; [reflexivity|].
  rewrite do_reservation_isolated in Hij.
  apply orb_false_iff in Hij. destruct Hij as [-> _]. cbn.
  destruct (N.ltb_spec j (N.of_nat nr)) as [Hlt|Hge]; cbn.
  - now rewrite andb_true_r.
  - now rewrite (cpumask_valid_high nr _ j Hv Hge).
Qed.

Lemma do_reservation_final_reserved_cpus_witness :
  final_reserved_consistent
    (mk_system
       (fst (hyp_core_ctl_do_reservation 4 11 fail_on_2
               (hyp_core_ctl_init 14)))
       11
       (snd (hyp_core_ctl_do_reservation 4 11 fail_on_2
               (hyp_core_ctl_init 14)))).
Proof.
  apply do_reservation_final_reserved_cpus. vm_compute. reflexivity.
Defined.

(** C4: in every state reached from the initial one by any sequence of
    engine cycles, toggles and hotplug callbacks, [our_isolated_cpus] is a
    subset of [reserve_cpus], which is the configured set; and every single
    operation puts in [our_isolated_cpus] only CPUs that were in it or are
    in [reserve_cpus]. *)
Theorem our_isolated_subset_reserve nr reserve online ops :
  cpumask_subset
    (our_isolated_cpus (hcd (run nr (initial reserve online) ops)))
    (reserve_cpus (hcd (run nr (initial reserve online) ops))) /\
  reserve_cpus (hcd (run nr (initial reserve online) ops)) = reserve /\
  forall s o,
    cpumask_subset
      (our_isolated_cpus (hcd (run_op nr s o)))
      (cpumask_or (our_isolated_cpus (hcd s)) (reserve_cpus (hcd s))).
Proof.
  assert (Hstep : forall s o,
    cpumask_subset
      (our_isolated_cpus (hcd (run_op nr s o)))
      (cpumask_or (our_isolated_cpus (hcd s)) (reserve_cpus (hcd s)))).
  { intros s o. apply cpumask_subset_spec. intros c Hc.
    unfold cpumask_or. rewrite N.lor_spec. apply orb_true_iff.
    now apply (run_op_isolated_origin nr s o c). }
  assert (Hinv :
    cpumask_subset
      (our_isolated_cpus (hcd (run nr (initial reserve online) ops)))
      (reserve_cpus (hcd (run nr (initial reserve online) ops))) /\
    reserve_cpus (hcd (run nr (initial reserve online) ops)) = reserve).
  { induction ops as [|o ops IH] using rev_ind.
    - split; reflexivity.
    - destruct IH as [Hs Hr]. rewrite run_snoc.
      rewrite run_op_reserve_cpus. split; [|exact Hr].
      apply cpumask_subset_spec. intros c Hc.
      destruct (run_op_isolated_origin nr _ o c Hc) as [H|H]; [|exact H].
      now apply (proj1 (cpumask_subset_spec _ _) Hs). }
  destruct Hinv as [Hs Hr]. repeat split; assumption.
Qed.

(** ** Convergence, idempotence and retry *)

(** C2, as stated, fails on a state the controller reaches: CPUs 2 and 3
    are isolated, the reservation is disabled, CPU 2 goes offline before
    the worker has run (the offline callback does nothing while the
    reservation is disabled) and the reservation is enabled again.  The
    next cycle, in which no call fails, leaves [our_isolated_cpus] = {2,3}
    although the online CPUs of [reserve_cpus] are {3}. *)
Lemma do_reservation_keeps_offline_isolated :
  run 4 (initial 12 15)
    [SetEnabled true; WorkerCycle always_ok always_ok;
     SetEnabled false; CpuOffline 2; SetEnabled true] =
  mk_system (mk_hcd true true 12 12 12) 11
    [WakeUpProcess; Isolate 2 0%Z; Isolate 3 0%Z;
     WakeUpProcess; WakeUpProcess] /\
  our_isolated_cpus
    (fst (hyp_core_ctl_do_reservation 4 11 always_ok
            (mk_hcd true true 12 12 12))) = 12 /\
  online_reserved (mk_hcd true true 12 12 12) 11 = 8 /\
  our_isolated_cpus
    (fst (hyp_core_ctl_do_reservation 4 11 always_ok
            (mk_hcd true true 12 12 12))) <>
  online_reserved (mk_hcd true true 12 12 12) 11.
Proof.
  repeat split; try reflexivity. vm_compute. discriminate.
Qed.

(** C2 (amended): when [our_isolated_cpus] holds only online CPUs of
    [reserve_cpus] and no isolate call of the cycle fails, one call of
    [hyp_core_ctl_do_reservation] leaves [our_isolated_cpus] equal to the
    online CPUs of [reserve_cpus]; a further call on that state, whatever
    the primitive would return, calls nothing and returns the same
    state.  The online mask is a mask of CPU numbers below [nr_cpu_ids],
    as [cpu_online_mask] is; [reserve_cpus] is any mask. *)
Theorem do_reservation_converges nr online iso h :
  cpumask_valid nr online ->
  cpumask_subset (our_isolated_cpus h) (online_reserved h online) ->
  (forall c r,
      In (Isolate c r) (snd (hyp_core_ctl_do_reservation nr online iso h)) ->
      (0 <= r)%Z) ->
  our_isolated_cpus (fst (hyp_core_ctl_do_reservation nr online iso h)) =
  online_reserved h online /\
  forall iso',
    hyp_core_ctl_do_reservation nr online iso'
      (fst (hyp_core_ctl_do_reservation nr online iso h)) =
    (fst (hyp_core_ctl_do_reservation nr online iso h), []).
Proof.
  intros Hv Hsub Hok. split.
  - apply N.bits_inj. intros j.
    rewrite do_reservation_isolated. unfold online_reserved.
    rewrite N.land_spec.
    pose proof (proj1 (cpumask_subset_spec _ _) Hsub j) as Hj.
    unfold online_reserved in Hj. rewrite N.land_spec in Hj.
    destruct (N.testbit (our_isolated_cpus h) j) eqn:Hij.
    + cbn. symmetry. now apply Hj.
    + cbn. destruct (N.testbit (reserve_cpus h) j) eqn:Hrj;
        [|now rewrite andb_false_r].
      destruct (N.testbit online j) eqn:Hoj;
        [|now rewrite andb_false_r].
      destruct (N.ltb_spec j (N.of_nat nr)) as [Hlt|Hge].
      * cbn. apply Z.leb_le. apply (Hok j).
        rewrite do_reservation_trace. apply in_isolate_calls.
        exists j. repeat split; auto.
        unfold cpumask_andnot. now rewrite N.ldiff_spec, Hrj, Hij.
      * rewrite (cpumask_valid_high nr _ j Hv Hge) in Hoj. discriminate.
  - intros iso'. now apply do_reservation_twice.
Qed.

Lemma do_reservation_converges_witness :
  our_isolated_cpus
    (fst (hyp_core_ctl_do_reservation 4 11 always_ok
            (mk_hcd false true 62 2 0))) =
  online_reserved (mk_hcd false true 62 2 0) 11 /\
  forall iso',
    hyp_core_ctl_do_reservation 4 11 iso'
      (fst (hyp_core_ctl_do_reservation 4 11 always_ok
              (mk_hcd false true 62 2 0))) =
    (fst (hyp_core_ctl_do_reservation 4 11 always_ok
            (mk_hcd false true 62 2 0)), []).
Proof.
  apply do_reservation_converges.
  - vm_compute. reflexivity.
  - vm_compute. reflexivity.
  - intros c r H. vm_compute in H. destruct H as [H|[]].
    inversion H. lia.
Defined.

(** C6, as stated, fails: when the isolate call on CPU 2 fails in the first
    of two consecutive cycles, the second cycle calls it again, although
    nothing changed in between; and when that second call succeeds, both
    [our_isolated_cpus] and [final_reserved_cpus] change. *)
Lemma do_reservation_retries_after_failure :
  hyp_core_ctl_do_reservation 4 15 always_fail
    (mk_hcd false true 4 0 0) =
  (mk_hcd false true 4 0 0, [Isolate 2 (-1)%Z]) /\
  snd (hyp_core_ctl_do_reservation 4 15 always_fail
         (fst (hyp_core_ctl_do_reservation 4 15 always_fail
                 (mk_hcd false true 4 0 0)))) <> [] /\
  hyp_core_ctl_do_reservation 4 15 always_ok
    (fst (hyp_core_ctl_do_reservation 4 15 always_fail
            (mk_hcd false true 4 0 0))) =
  (mk_hcd false true 4 4 4, [Isolate 2 0%Z]).
Proof.
  repeat split; try reflexivity. vm_compute. discriminate.
Qed.

(** C6 (amended): when no isolate call of a cycle failed, a second call of
    [hyp_core_ctl_do_reservation] with the same online CPUs makes no call
    to the isolation primitives and returns the state unchanged, so
    [our_isolated_cpus] and [final_reserved_cpus] are as the first call
    left them. *)
Theorem do_reservation_idempotent nr online iso iso' h :
  (forall c r,
      In (Isolate c r) (snd (hyp_core_ctl_do_reservation nr online iso h)) ->
      (0 <= r)%Z) ->
  snd (hyp_core_ctl_do_reservation nr online iso'
         (fst (hyp_core_ctl_do_reservation nr online iso h))) = [] /\
  our_isolated_cpus
    (fst (hyp_core_ctl_do_reservation nr online iso'
            (fst (hyp_core_ctl_do_reservation nr online iso h)))) =
  our_isolated_cpus (fst (hyp_core_ctl_do_reservation nr online iso h)) /\
  final_reserved_cpus
    (fst (hyp_core_ctl_do_reservation nr online iso'
            (fst (hyp_core_ctl_do_reservation nr online iso h)))) =
  final_reserved_cpus (fst (hyp_core_ctl_do_reservation nr online iso h)).
Proof.
  intros Hok. rewrite (do_reservation_twice nr online iso iso' h Hok).
  repeat split.
Qed.

Lemma do_reservation_idempotent_witness :
  snd (hyp_core_ctl_do_reservation 4 11 always_fail
         (fst (hyp_core_ctl_do_reservation 4 11 always_ok
                 (mk_hcd false true 12 0 0)))) = [] /\
  our_isolated_cpus
    (fst (hyp_core_ctl_do_reservation 4 11 always_fail
            (fst (hyp_core_ctl_do_reservation 4 11 always_ok
                    (mk_hcd false true 12 0 0))))) =
  our_isolated_cpus
    (fst (hyp_core_ctl_do_reservation 4 11 always_ok
            (mk_hcd false true 12 0 0))) /\
  final_reserved_cpus
    (fst (hyp_core_ctl_do_reservation 4 11 always_fail
            (fst (hyp_core_ctl_do_reservation 4 11 always_ok
                    (mk_hcd false true 12 0 0))))) =
  final_reserved_cpus
    (fst (hyp_core_ctl_do_reservation 4 11 always_ok
            (mk_hcd false true 12 0 0))).
Proof.
  apply do_reservation_idempotent.
  intros c r H. vm_compute in H. destruct H as [H|[]].
  inversion H. lia.
Defined.

(** C5: when the isolate call on CPU [c] fails in a cycle, [c] is a CPU of
    [reserve_cpus] that is not in [our_isolated_cpus] after the cycle;
    every CPU of the iteration set is processed all the same (an online one
    gets its isolate call and is isolated exactly when the call succeeds,
    an offline one is counted in [final_reserved_cpus]); and the next
    cycle calls isolate on [c] again, with the CPUs online as they were
    and more generally whenever [c] is online in that cycle. *)
Theorem isolate_failure_retried nr online iso h c r :
  In (Isolate c r) (snd (hyp_core_ctl_do_reservation nr online iso h)) ->
  (r < 0)%Z ->
  N.testbit (reserve_cpus h) c = true /\
  N.testbit
    (our_isolated_cpus
       (fst (hyp_core_ctl_do_reservation nr online iso h))) c = false /\
  (forall j,
      j < N.of_nat nr ->
      N.testbit
        (cpumask_andnot (reserve_cpus h) (our_isolated_cpus h)) j = true ->
      (N.testbit online j = true ->
       In (Isolate j (iso j))
          (snd (hyp_core_ctl_do_reservation nr online iso h)) /\
       N.testbit
         (our_isolated_cpus
            (fst (hyp_core_ctl_do_reservation nr online iso h))) j =
       (0 <=? iso j)%Z) /\
      (N.testbit online j = false ->
       (forall r', ~ In (Isolate j r')
                     (snd (hyp_core_ctl_do_reservation nr online iso h))) /\
       N.testbit
         (final_reserved_cpus
            (fst (hyp_core_ctl_do_reservation nr online iso h))) j = true)) /\
  (forall iso',
      In (Isolate c (iso' c))
         (snd (hyp_core_ctl_do_reservation nr online iso'
                 (fst (hyp_core_ctl_do_reservation nr online iso h))))) /\
  (forall online' iso',
      N.testbit online' c = true ->
      In (Isolate c (iso' c))
         (snd (hyp_core_ctl_do_reservation nr online' iso'
                 (fst (hyp_core_ctl_do_reservation nr online iso h))))).
Proof.
  intros Hin Hneg.
  rewrite do_reservation_trace in Hin. apply in_isolate_calls in Hin.
  destruct Hin as (c0 & Heq & Hc & Hic & Hoc).
  injection Heq as <- ->.
  pose proof Hic as Hic'. unfold cpumask_andnot in Hic'.
  rewrite N.ldiff_spec in Hic'. apply andb_true_iff in Hic'.
  destruct Hic' as [Hrc Hnc]. apply negb_true_iff in Hnc.
  assert (Hafter :
    N.testbit
      (our_isolated_cpus
         (fst (hyp_core_ctl_do_reservation nr online iso h))) c = false).
  { rewrite do_reservation_isolated, Hnc, Hrc, Hoc.
    replace (0 <=? iso c)%Z with false by lia.
    now rewrite !andb_false_r. }
  split; [exact Hrc|]. split; [exact Hafter|]. split.
  - intros j Hj Hij.
    pose proof Hij as Hij'. unfold cpumask_andnot in Hij'.
    rewrite N.ldiff_spec in Hij'. apply andb_true_iff in Hij'.
    destruct Hij' as [Hrj Hnj].
    split; intros Hoj.
    + split.
      * rewrite do_reservation_trace. apply in_isolate_calls.
        exists j. repeat split; auto.
      * apply negb_true_iff in Hnj.
        rewrite do_reservation_isolated.
        rewrite Hnj, Hrj, Hoj, (proj2 (N.ltb_lt _ _) Hj). reflexivity.
    + split.
      * intros r' Hin. rewrite do_reservation_trace in Hin.
        apply in_isolate_calls in Hin.
        destruct Hin as (j0 & Heq' & _ & _ & Hoj0).
        injection Heq' as <- _. rewrite Hoj in Hoj0. discriminate.
      * rewrite do_reservation_final.
        rewrite Hrj, Hnj, Hoj, (proj2 (N.ltb_lt _ _) Hj). cbn.
        apply orb_true_r.
  - assert (Hnext : forall online' iso',
      N.testbit online' c = true ->
      In (Isolate c (iso' c))
         (snd (hyp_core_ctl_do_reservation nr online' iso'
                 (fst (hyp_core_ctl_do_reservation nr online iso h))))).
    { intros online' iso' Hon.
      rewrite do_reservation_trace. apply in_isolate_calls.
      exists c. repeat split; auto.
      unfold cpumask_andnot. rewrite N.ldiff_spec, Hafter.
      destruct (do_reservation_frame nr online iso h) as (_ & _ & Hr).
      cbv zeta in Hr. now rewrite Hr, Hrc. }
    split; [|exact Hnext].
    intros iso'. now apply Hnext.
Qed.

Lemma isolate_failure_retried_witness :
  N.testbit (reserve_cpus (mk_hcd false true 12 0 0)) 2 = true /\
  N.testbit
    (our_isolated_cpus
       (fst (hyp_core_ctl_do_reservation 4 15 fail_on_2
               (mk_hcd false true 12 0 0)))) 2 = false /\
  In (Isolate 3 0%Z)
     (snd (hyp_core_ctl_do_reservation 4 15 fail_on_2
             (mk_hcd false true 12 0 0))) /\
  In (Isolate 2 0%Z)
     (snd (hyp_core_ctl_do_reservation 4 15 always_ok
             (fst (hyp_core_ctl_do_reservation 4 15 fail_on_2
                     (mk_hcd false true 12 0 0))))).
Proof.
  destruct (isolate_failure_retried 4 15 fail_on_2
              (mk_hcd false true 12 0 0) 2 (-16)%Z)
    as (Hr & Ha & Hrest & Hsame & _).
  - vm_compute. left. reflexivity.
  - lia.
  - split; [exact Hr|]. split; [exact Ha|]. split.
    + apply (Hrest 3); [vm_compute; reflexivity | reflexivity | reflexivity].
    + apply (Hsame always_ok).
Defined.

(** ** Undoing the reservation *)

(** C7: [hyp_core_ctl_undo_reservation] calls unisolate once on every CPU
    of [our_isolated_cpus] and on no other; such a CPU stays in
    [our_isolated_cpus] exactly when its call fails, and no CPU is added.
    With [our_isolated_cpus] = {2,3} and no failing call, the calls are
    unisolate(2) then unisolate(3) and [our_isolated_cpus] ends empty. *)
Theorem undo_reservation_unisolates nr unis h :
  (forall c,
      c < N.of_nat nr ->
      N.testbit (our_isolated_cpus h) c = true ->
      In (Unisolate c (unis c))
         (snd (hyp_core_ctl_undo_reservation nr unis h)) /\
      N.testbit
        (our_isolated_cpus
           (fst (hyp_core_ctl_undo_reservation nr unis h))) c =
      (unis c <? 0)%Z) /\
  (forall c r,
      In (Unisolate c r) (snd (hyp_core_ctl_undo_reservation nr unis h)) ->
      N.testbit (our_isolated_cpus h) c = true /\ r = unis c) /\
  (forall c,
      N.testbit (our_isolated_cpus h) c = false ->
      N.testbit
        (our_isolated_cpus
           (fst (hyp_core_ctl_undo_reservation nr unis h))) c = false) /\
  ((4 <= nr)%nat ->
   our_isolated_cpus h = 12 ->
   (0 <= unis 2%N)%Z -> (0 <= unis 3%N)%Z ->
   snd (hyp_core_ctl_undo_reservation nr unis h) =
   [Unisolate 2 (unis 2); Unisolate 3 (unis 3)] /\
   our_isolated_cpus (fst (hyp_core_ctl_undo_reservation nr unis h)) = 0).
Proof.
  split; [|split; [|split]].
  - intros c Hlt Hc. split.
    + rewrite undo_reservation_trace. apply in_unisolate_calls.
      exists c. repeat split; auto.
    + rewrite undo_reservation_isolated, Hc.
      rewrite (proj2 (N.ltb_lt _ _) Hlt). cbn.
      destruct (Z.leb_spec 0 (unis c)), (Z.ltb_spec (unis c) 0);
        try reflexivity; lia.
  - intros c r Hin. rewrite undo_reservation_trace in Hin.
    apply in_unisolate_calls in Hin.
    destruct Hin as (c0 & Heq & _ & Hc). injection Heq as <- ->. auto.
  - intros c Hc. now rewrite undo_reservation_isolated, Hc.
  - intros H4 H12 H2 H3.
    assert (Hbits : forall j, N.testbit 12 j = true -> j = 2 \/ j = 3).
    { intros j Hj. destruct (N.lt_ge_cases j 4) as [Hlt|Hge].
      - assert (j = 0 \/ j = 1 \/ j = 2 \/ j = 3)
          as [-> | [-> | [-> | ->]]] by lia; try discriminate; auto.
      - rewrite (cpumask_valid_high 4 12 j) in Hj;
          [discriminate | reflexivity | exact Hge]. }
    split.
    + rewrite undo_reservation_trace, H12.
      replace nr with (4 + (nr - 4))%nat by lia.
      unfold unisolate_calls. rewrite seq_app, flat_map_app. cbn [Nat.add].
      replace (flat_map _ (seq 4 (nr - 4))) with (@nil event).
      * reflexivity.
      * symmetry. apply flat_map_all_nil.
        intros i Hi. apply in_seq in Hi.
        rewrite (cpumask_valid_high 4 12 (N.of_nat i)); [reflexivity| |lia].
        reflexivity.
    + apply N.bits_inj. intros j.
      rewrite undo_reservation_isolated, N.bits_0, H12.
      destruct (N.testbit 12 j) eqn:Hj; [|reflexivity].
      assert (Hlt : j < N.of_nat nr)
        by (destruct (Hbits j Hj) as [-> | ->]; lia).
      rewrite (proj2 (N.ltb_lt _ _) Hlt). cbn.
      destruct (Hbits j Hj) as [-> | ->]; apply negb_false_iff;
        apply Z.leb_le; assumption.
Qed.

Lemma undo_reservation_unisolates_witness :
  snd (hyp_core_ctl_undo_reservation 4 always_ok
         (mk_hcd false false 12 12 12)) =
  [Unisolate 2 0%Z; Unisolate 3 0%Z] /\
  our_isolated_cpus
    (fst (hyp_core_ctl_undo_reservation 4 always_ok
            (mk_hcd false false 12 12 12))) = 0 /\
  N.testbit
    (our_isolated_cpus
       (fst (hyp_core_ctl_undo_reservation 4 fail_on_2
               (mk_hcd false false 12 12 12)))) 2 = true.
Proof.
  destruct (undo_reservation_unisolates 4 always_ok
              (mk_hcd false false 12 12 12)) as (_ & _ & _ & Hs).
  destruct (undo_reservation_unisolates 4 fail_on_2
              (mk_hcd false false 12 12 12)) as (Hc & _).
  destruct Hs as [Ht Hi];
    [lia | reflexivity | vm_compute; discriminate
     | vm_compute; discriminate |].
  split; [exact Ht|]. split; [exact Hi|].
  destruct (Hc 2) as [_ Hb]; [lia | reflexivity |]. exact Hb.
Defined.

(** ** Hotplug callbacks and the enable toggle *)

(** C3: when the reservation is enabled and [cpu] is in
    [our_isolated_cpus], [hyp_core_ctl_hp_offline] clears [cpu] from
    [our_isolated_cpus], touches nothing else and makes exactly one call,
    the unisolation of [cpu]; when the reservation is not enabled it
    returns the state as it was and calls nothing. *)
Theorem hp_offline_unisolates h cpu :
  (reservation_enabled h = true ->
   N.testbit (our_isolated_cpus h) cpu = true ->
   hyp_core_ctl_hp_offline (Some h) cpu =
   (0%Z,
    Some (set_our_isolated_cpus
            (cpumask_clear_cpu cpu (our_isolated_cpus h)) h),
    [UnisolateUnlocked cpu]) /\
   N.testbit (cpumask_clear_cpu cpu (our_isolated_cpus h)) cpu = false /\
   forall c, c <> cpu ->
             N.testbit (cpumask_clear_cpu cpu (our_isolated_cpus h)) c =
             N.testbit (our_isolated_cpus h) c) /\
  (reservation_enabled h = false ->
   hyp_core_ctl_hp_offline (Some h) cpu = (0%Z, Some h, [])).
Proof.
  split.
  - intros He Hc. unfold hyp_core_ctl_hp_offline, cpumask_test_and_clear_cpu.
    rewrite He, Hc. cbn. split; [reflexivity|].
    unfold cpumask_clear_cpu. split.
    + rewrite N.clearbit_eqb, N.eqb_refl. cbn. apply andb_false_r.
    + intros c Hne. rewrite N.clearbit_eqb.
      rewrite (proj2 (N.eqb_neq cpu c)) by congruence.
      cbn. apply andb_true_r.
  - intros He. unfold hyp_core_ctl_hp_offline. rewrite He. reflexivity.
Qed.

Lemma hp_offline_unisolates_witness :
  hyp_core_ctl_hp_offline (Some (mk_hcd false true 12 12 12)) 2 =
  (0%Z, Some (mk_hcd false true 12 8 12), [UnisolateUnlocked 2]) /\
  hyp_core_ctl_hp_offline (Some (mk_hcd false false 12 12 12)) 2 =
  (0%Z, Some (mk_hcd false false 12 12 12), []).
Proof.
  split.
  - apply (proj1 (hp_offline_unisolates (mk_hcd false true 12 12 12) 2));
      reflexivity.
  - apply (proj2 (hp_offline_unisolates (mk_hcd false false 12 12 12) 2)).
    reflexivity.
Defined.

(** C8: [hyp_core_ctl_enable] called with the value the flag already has
    returns the state as it was and does not wake the worker; called with
    the other value it stores it in [reservation_enabled], sets [pending],
    leaves the three masks alone and wakes the worker once. *)
Theorem enable_toggle h x :
  (reservation_enabled h = x ->
   hyp_core_ctl_enable (Some h) x = Done (h, [])) /\
  (reservation_enabled h <> x ->
   hyp_core_ctl_enable (Some h) x =
   Done (mk_hcd true x (reserve_cpus h) (our_isolated_cpus h)
                (final_reserved_cpus h),
         [WakeUpProcess])).
Proof.
  unfold hyp_core_ctl_enable. split; intros H.
  - subst x. now rewrite Bool.eqb_reflx.
  - destruct x, (reservation_enabled h) eqn:E; try congruence; reflexivity.
Qed.

Lemma enable_toggle_witness :
  hyp_core_ctl_enable (Some (mk_hcd false true 12 12 12)) true =
  Done (mk_hcd false true 12 12 12, []) /\
  hyp_core_ctl_enable (Some (mk_hcd false true 12 12 12)) false =
  Done (mk_hcd true false 12 12 12, [WakeUpProcess]).
Proof.
  split.
  - apply (proj1 (enable_toggle (mk_hcd false true 12 12 12) true)).
    reflexivity.
  - apply (proj2 (enable_toggle (mk_hcd false true 12 12 12) false)).
    cbn. discriminate.
Defined.

(** C9: [enable_store] tests nothing but the result of [kstrtobool]: on a
    valid boolean it is [hyp_core_ctl_enable] on whatever [the_hcd] holds,
    so with [the_hcd] still [NULL] the write dereferences the null pointer,
    where [enable_show] returns [-EPERM]. *)
Theorem enable_store_null_deref kstrtobool buf count enable :
  kstrtobool buf = Some enable ->
  (forall the_hcd,
      enable_store kstrtobool the_hcd buf count =
      match hyp_core_ctl_enable the_hcd enable with
      | NullDeref => NullDeref
      | Done (hcd, tr) => Done (ssize_of_size count, Some hcd, tr)
      end) /\
  hyp_core_ctl_enable None enable = NullDeref /\
  enable_store kstrtobool None buf count = NullDeref /\
  fst (enable_show None) = (- EPERM)%Z.
Proof.
  intros Hk. unfold enable_store. rewrite Hk. repeat split.
Qed.

Lemma enable_store_null_deref_witness :
  enable_store kstrtobool_digits None "1" 1 = NullDeref /\
  fst (enable_show None) = (-1)%Z.
Proof.
  destruct (enable_store_null_deref kstrtobool_digits "1" 1 true)
    as (_ & _ & Hs & Hr).
  - reflexivity.
  - split; [exact Hs | exact Hr].
Defined.

(** C10: [hyp_core_ctl_undo_reservation], both hotplug callbacks and
    [hyp_core_ctl_enable] return [final_reserved_cpus] as they found it;
    so it is for the undo and the offline callback when they take CPUs out
    of [our_isolated_cpus]. *)
Theorem final_reserved_cpus_frame nr unis h cpu enable :
  final_reserved_cpus (fst (hyp_core_ctl_undo_reservation nr unis h)) =
  final_reserved_cpus h /\
  option_map final_reserved_cpus
    (snd (fst (hyp_core_ctl_hp_offline (Some h) cpu))) =
  Some (final_reserved_cpus h) /\
  option_map final_reserved_cpus
    (snd (fst (hyp_core_ctl_hp_online (Some h) cpu))) =
  Some (final_reserved_cpus h) /\
  snd (fst (hyp_core_ctl_hp_offline None cpu)) = None /\
  snd (fst (hyp_core_ctl_hp_online None cpu)) = None /\
  match hyp_core_ctl_enable (Some h) enable with
  | Done (h', _) => final_reserved_cpus h' = final_reserved_cpus h
  | NullDeref => False
  end /\
  hyp_core_ctl_undo_reservation 4 always_ok (mk_hcd false false 12 12 12) =
  (mk_hcd false false 12 0 12, [Unisolate 2 0%Z; Unisolate 3 0%Z]) /\
  hyp_core_ctl_hp_offline (Some (mk_hcd false true 12 12 12)) 2 =
  (0%Z, Some (mk_hcd false true 12 8 12), [UnisolateUnlocked 2]).
Proof.
  split; [apply undo_reservation_frame|].
  split.
  { unfold hyp_core_ctl_hp_offline, cpumask_test_and_clear_cpu.
    destruct (reservation_enabled h); cbn; [|reflexivity].
    destruct (N.testbit (our_isolated_cpus h) cpu); reflexivity. }
  split.
  { unfold hyp_core_ctl_hp_online.
    destruct (reservation_enabled h); cbn; [|reflexivity].
    destruct (cpumask_test_cpu cpu (final_reserved_cpus h)); reflexivity. }
  split; [reflexivity|]. split; [reflexivity|].
  split.
  { unfold hyp_core_ctl_enable.
    destruct (Bool.eqb enable (reservation_enabled h)); reflexivity. }
  split; reflexivity.
Qed.

(** ** The masks in the reachable states *)

Lemma cpumask_valid_intro (nr : nat) (m : cpumask_t) :
  (forall j, N.of_nat nr <= j -> N.testbit m j = false) ->
  cpumask_valid nr m.
Proof.
  intros H. unfold cpumask_valid.
  assert (Hm : m = m mod 2 ^ N.of_nat nr).
  { apply N.bits_inj. intros j.
    destruct (N.lt_ge_cases j (N.of_nat nr)) as [Hlt|Hge].
    - now rewrite N.mod_pow2_bits_low.
    - now rewrite N.mod_pow2_bits_high, H. }
  rewrite Hm. apply N.mod_lt. apply N.pow_nonzero. discriminate.
Qed.

Lemma cpumask_valid_low (nr : nat) (m : cpumask_t) (j : N) :
  cpumask_valid nr m -> N.testbit m j = true -> j < N.of_nat nr.
Proof.
  intros Hv Hj. destruct (N.lt_ge_cases j (N.of_nat nr)) as [|Hge];
    [assumption|].
  rewrite (cpumask_valid_high nr m j Hv Hge) in Hj. discriminate.
Qed.

Lemma masks_nested_bits (nr : nat) (h : hyp_core_ctl_data) :
  masks_nested nr h <->
  (forall c, N.testbit (our_isolated_cpus h) c = true ->
             N.testbit (final_reserved_cpus h) c = true) /\
  (forall c, N.testbit (final_reserved_cpus h) c = true ->
             N.testbit (reserve_cpus h) c = true) /\
  (forall c, N.testbit (final_reserved_cpus h) c = true ->
             c < N.of_nat nr).
Proof.
  unfold masks_nested. rewrite !cpumask_subset_spec. split.
  - intros (H1 & H2 & H3 & H4). repeat split; auto.
    intros c Hc. now apply (cpumask_valid_low nr _ c H4).
  - intros (H1 & H2 & H3). repeat split; auto.
    + apply cpumask_valid_intro. intros j Hj.
      destruct (N.testbit (our_isolated_cpus h) j) eqn:E; [|reflexivity].
      apply H1, H3 in E. lia.
    + apply cpumask_valid_intro. intros j Hj.
      destruct (N.testbit (final_reserved_cpus h) j) eqn:E; [|reflexivity].
      apply H3 in E. lia.
Qed.

(** A cycle of the reservation re-establishes the nesting as soon as
    [our_isolated_cpus] was within [reserve_cpus] and below [nr]. *)
Lemma do_reservation_masks_nested nr online iso h :
  (forall c, N.testbit (our_isolated_cpus h) c = true ->
             N.testbit (reserve_cpus h) c = true /\ c < N.of_nat nr) ->
  masks_nested nr (fst (hyp_core_ctl_do_reservation nr online iso h)).
Proof.
  intros Hh. apply masks_nested_bits.
  destruct (do_reservation_frame nr online iso h) as (_ & _ & Hr).
  cbv zeta in Hr. rewrite Hr.
  assert (Hi : forall c,
    N.testbit
      (our_isolated_cpus
         (fst (hyp_core_ctl_do_reservation nr online iso h))) c = true ->
    N.testbit (reserve_cpus h) c = true /\ c < N.of_nat nr).
  { intros c. rewrite do_reservation_isolated. intros H.
    apply orb_true_iff in H. destruct H as [H|H]; [now apply Hh|].
    apply andb_true_iff in H. destruct H as [H _].
    apply andb_true_iff in H. destruct H as [H _].
    apply andb_true_iff in H. destruct H as [Hlt Hrc].
    split; [exact Hrc | now apply N.ltb_lt]. }
  assert (Hf : forall c,
    N.testbit
      (final_reserved_cpus
         (fst (hyp_core_ctl_do_reservation nr online iso h))) c = true ->
    N.testbit (reserve_cpus h) c = true /\ c < N.of_nat nr).
  { intros c. rewrite do_reservation_final. intros H.
    apply orb_true_iff in H. destruct H as [H|H]; [now apply Hi|].
    apply andb_true_iff in H. destruct H as [H _].
    apply andb_true_iff in H. destruct H as [H _].
    apply andb_true_iff in H. destruct H as [Hlt Hrc].
    split; [exact Hrc | now apply N.ltb_lt]. }
  repeat split.
  - intros c Hc. rewrite do_reservation_final, Hc. reflexivity.
  - intros c Hc. now apply Hf.
  - intros c Hc. now apply Hf.
Qed.

(** Taking CPUs out of [our_isolated_cpus] keeps the nesting. *)
Lemma masks_nested_shrink nr h h' :
  masks_nested nr h ->
  reserve_cpus h' = reserve_cpus h ->
  final_reserved_cpus h' = final_reserved_cpus h ->
  (forall c, N.testbit (our_isolated_cpus h') c = true ->
             N.testbit (our_isolated_cpus h) c = true) ->
  masks_nested nr h'.
Proof.
  intros Hn Hr Hf Hi. apply masks_nested_bits in Hn.
  destruct Hn as (H1 & H2 & H3).
  apply masks_nested_bits. rewrite Hr, Hf. repeat split; auto.
Qed.

Lemma masks_nested_isolated nr h c :
  masks_nested nr h ->
  N.testbit (our_isolated_cpus h) c = true ->
  N.testbit (reserve_cpus h) c = true /\ c < N.of_nat nr.
Proof.
  intros Hn Hc. apply masks_nested_bits in Hn.
  destruct Hn as (H1 & H2 & H3). split; auto.
Qed.

Lemma thread_cycle_masks_nested nr stop online iso unis h :
  masks_nested nr h ->
  masks_nested nr
    (fst (hyp_core_ctl_thread_cycle nr stop online iso unis h)).
Proof.
  intros Hn. unfold hyp_core_ctl_thread_cycle.
  destruct stop; [exact Hn|].
  cbn [reservation_enabled set_pending].
  destruct (reservation_enabled h).
  - apply do_reservation_masks_nested. intros c Hc.
    now apply (masks_nested_isolated nr h c).
  - destruct (undo_reservation_frame nr unis (set_pending false h))
      as (_ & _ & Hr & Hf). cbv zeta in Hr, Hf.
    apply (masks_nested_shrink nr h); auto.
    intros c. rewrite undo_reservation_isolated. cbn.
    intros H. apply andb_true_iff in H. tauto.
Qed.

Lemma run_op_masks_nested nr s o :
  masks_nested nr (hcd s) -> masks_nested nr (hcd (run_op nr s o)).
Proof.
  intros Hn. destruct s as [h online lg]. cbn [hcd] in Hn.
  destruct o as [iso|unis|iso unis|enable|cpu|cpu];
    cbn [run_op hcd cpu_online_mask log].
  - rewrite (surjective_pairing (hyp_core_ctl_do_reservation _ _ _ _)).
    cbn [hcd]. apply do_reservation_masks_nested. intros c Hc.
    now apply (masks_nested_isolated nr h c).
  - rewrite (surjective_pairing (hyp_core_ctl_undo_reservation _ _ _)).
    cbn [hcd].
    destruct (undo_reservation_frame nr unis h) as (_ & _ & Hr & Hf).
    cbv zeta in Hr, Hf.
    apply (masks_nested_shrink nr h); auto.
    intros c. rewrite undo_reservation_isolated.
    intros H. apply andb_true_iff in H. tauto.
  - rewrite (surjective_pairing (hyp_core_ctl_thread_cycle _ _ _ _ _ _)).
    cbn [hcd]. now apply thread_cycle_masks_nested.
  - unfold hyp_core_ctl_enable.
    destruct (Bool.eqb enable (reservation_enabled h)); cbn [hcd];
      [exact Hn|].
    apply (masks_nested_shrink nr h); auto.
  - unfold hyp_core_ctl_hp_offline, cpumask_test_and_clear_cpu.
    destruct (reservation_enabled h); cbn; [|exact Hn].
    assert (Hs : masks_nested nr
                   (set_our_isolated_cpus
                      (N.clearbit (our_isolated_cpus h) cpu) h)).
    { apply (masks_nested_shrink nr h); auto.
      intros c. cbn. rewrite N.clearbit_eqb.
      intros H. apply andb_true_iff in H. tauto. }
    destruct (N.testbit (our_isolated_cpus h) cpu); exact Hs.
  - unfold hyp_core_ctl_hp_online.
    destruct (reservation_enabled h); cbn; [|exact Hn].
    destruct (cpumask_test_cpu cpu (final_reserved_cpus h)); cbn [hcd];
      [|exact Hn].
    apply (masks_nested_shrink nr h); auto.
Qed.

Lemma run_masks_nested nr s ops :
  masks_nested nr (hcd s) -> masks_nested nr (hcd (run nr s ops)).
Proof.
  intros Hn. induction ops as [|o ops IH] using rev_ind; [exact Hn|].
  rewrite run_snoc. now apply run_op_masks_nested.
Qed.

Lemma initial_masks_nested nr reserve online :
  masks_nested nr (hcd (initial reserve online)).
Proof.
  apply masks_nested_bits. cbn.
  repeat split; intros c Hc; destruct c; discriminate.
Qed.

(** X1: in every state reached from the initial one, [our_isolated_cpus]
    is within [final_reserved_cpus], which is within [reserve_cpus], and
    neither output mask holds a CPU number at or above [nr_cpu_ids],
    whatever the isolation primitives returned and whatever
    [reserve_cpus] holds. *)
Theorem reachable_masks_nested nr reserve online ops :
  masks_nested nr (hcd (run nr (initial reserve online) ops)).
Proof.
  apply run_masks_nested. apply initial_masks_nested.
Qed.

(** ** The calls of the engine *)

Lemma flat_map_filter_map {A : Type} (p : N -> bool) (f : N -> A)
    (l : list nat) :
  flat_map (fun i => if p (N.of_nat i) then [f (N.of_nat i)] else []) l =
  map f (filter p (map N.of_nat l)).
Proof.
  induction l as [|i l IH]; [reflexivity|].
  cbn. destruct (p (N.of_nat i)); cbn; now rewrite IH.
Qed.

Lemma filter_twice {A : Type} (f g : A -> bool) (l : list A) :
  filter f (filter g l) = filter (fun x => g x && f x) l.
Proof.
  induction l as [|a l IH]; [reflexivity|].
  cbn. destruct (g a); cbn; [destruct (f a)|]; now rewrite IH.
Qed.

Lemma in_cpumask_cpus nr m c :
  In c (cpumask_cpus nr m) <-> c < N.of_nat nr /\ N.testbit m c = true.
Proof.
  unfold cpumask_cpus. rewrite filter_In, in_map_iff. split.
  - intros [(i & <- & Hi) Hc]. apply in_seq in Hi. split; [lia|exact Hc].
  - intros [Hlt Hc]. split; [|exact Hc].
    exists (N.to_nat c). rewrite N2Nat.id. split; [reflexivity|].
    apply in_seq. lia.
Qed.

Lemma seq_of_nat_sorted (a k : nat) :
  StronglySorted N.lt (map N.of_nat (seq a k)).
Proof.
  revert a. induction k as [|k IH]; intros a; cbn; constructor.
  - apply IH.
  - apply Forall_forall. intros x Hx. apply in_map_iff in Hx.
    destruct Hx as (i & <- & Hi). apply in_seq in Hi. lia.
Qed.

Lemma filter_sorted (p : N -> bool) (l : list N) :
  StronglySorted N.lt l -> StronglySorted N.lt (filter p l).
Proof.
  induction 1 as [|a l Hs IH Ha]; cbn; [constructor|].
  destruct (p a); [|exact IH].
  constructor; [exact IH|].
  apply Forall_forall. intros x Hx. apply filter_In in Hx.
  destruct Hx as [Hx _]. revert x Hx. now apply Forall_forall.
Qed.

Lemma cpumask_cpus_sorted nr m : StronglySorted N.lt (cpumask_cpus nr m).
Proof.
  unfold cpumask_cpus. apply filter_sorted, seq_of_nat_sorted.
Qed.

Lemma isolate_calls_cpus k iter online iso :
  isolate_calls k iter online iso =
  map (fun c => Isolate c (iso c)) (cpumask_cpus k (N.land iter online)).
Proof.
  unfold isolate_calls, cpumask_cpus.
  rewrite <- (flat_map_filter_map (N.testbit (N.land iter online))
                (fun c => Isolate c (iso c))).
  apply flat_map_ext. intros i. now rewrite N.land_spec.
Qed.

Lemma unisolate_calls_cpus k isolated unis :
  unisolate_calls k isolated unis =
  map (fun c => Unisolate c (unis c)) (cpumask_cpus k isolated).
Proof.
  unfold unisolate_calls, cpumask_cpus.
  now rewrite <- (flat_map_filter_map (N.testbit isolated)
                    (fun c => Unisolate c (unis c))).
Qed.

(** X2: the reservation calls isolate exactly on the online CPUs of
    [reserve_cpus] that are not in [our_isolated_cpus], and its undoing
    calls unisolate exactly on the CPUs of [our_isolated_cpus]; both walk
    the CPU numbers below [nr_cpu_ids] in strictly ascending order, so no
    CPU is called twice in a cycle, and a failing call stops nothing. *)
Theorem engine_calls_ascending nr online iso unis h :
  snd (hyp_core_ctl_do_reservation nr online iso h) =
  map (fun c => Isolate c (iso c))
      (cpumask_cpus nr
         (N.land (cpumask_andnot (reserve_cpus h) (our_isolated_cpus h))
                 online)) /\
  snd (hyp_core_ctl_undo_reservation nr unis h) =
  map (fun c => Unisolate c (unis c))
      (cpumask_cpus nr (our_isolated_cpus h)) /\
  (forall m, StronglySorted N.lt (cpumask_cpus nr m)) /\
  (forall m c,
      In c (cpumask_cpus nr m) <->
      c < N.of_nat nr /\ N.testbit m c = true).
Proof.
  split; [|split; [|split]].
  - rewrite do_reservation_trace. apply isolate_calls_cpus.
  - rewrite undo_reservation_trace. apply unisolate_calls_cpus.
  - intros m. apply cpumask_cpus_sorted.
  - intros m c. apply in_cpumask_cpus.
Qed.

(** X3: a cycle of the reservation never takes a CPU out of
    [our_isolated_cpus]; what it adds are online CPUs of [reserve_cpus];
    and [final_reserved_cpus] afterwards holds, besides
    [our_isolated_cpus], only offline CPUs of [reserve_cpus].  When every
    isolate call fails, [our_isolated_cpus] is as it was. *)
Theorem do_reservation_bounds nr online iso h :
  cpumask_subset
    (our_isolated_cpus h)
    (our_isolated_cpus (fst (hyp_core_ctl_do_reservation nr online iso h))) /\
  cpumask_subset
    (our_isolated_cpus (fst (hyp_core_ctl_do_reservation nr online iso h)))
    (cpumask_or (our_isolated_cpus h) (N.land (reserve_cpus h) online)) /\
  cpumask_subset
    (final_reserved_cpus (fst (hyp_core_ctl_do_reservation nr online iso h)))
    (cpumask_or
       (our_isolated_cpus (fst (hyp_core_ctl_do_reservation nr online iso h)))
       (N.ldiff (reserve_cpus h) online)) /\
  ((forall c, (iso c < 0)%Z) ->
   our_isolated_cpus (fst (hyp_core_ctl_do_reservation nr online iso h)) =
   our_isolated_cpus h).
Proof.
  split; [|split; [|split]].
  - apply cpumask_subset_spec. intros c Hc.
    now rewrite do_reservation_isolated, Hc.
  - apply cpumask_subset_spec. intros c.
    unfold cpumask_or.
    rewrite do_reservation_isolated, N.lor_spec, N.land_spec.
    destruct (N.testbit (our_isolated_cpus h) c); [reflexivity|]. cbn.
    intros H. apply andb_true_iff in H. destruct H as [H _].
    apply andb_true_iff in H. destruct H as [H Ho].
    apply andb_true_iff in H. destruct H as [_ Hr].
    now rewrite Hr, Ho.
  - apply cpumask_subset_spec. intros c.
    unfold cpumask_or.
    rewrite do_reservation_final, N.lor_spec, N.ldiff_spec.
    destruct (N.testbit
                (our_isolated_cpus
                   (fst (hyp_core_ctl_do_reservation nr online iso h))) c);
      [reflexivity|]. cbn.
    intros H. apply andb_true_iff in H. destruct H as [H Ho].
    apply andb_true_iff in H. destruct H as [H _].
    apply andb_true_iff in H. destruct H as [_ Hr].
    now rewrite Hr, Ho.
  - intros Hfail. apply N.bits_inj. intros c.
    rewrite do_reservation_isolated.
    replace (0 <=? iso c)%Z with false by (specialize (Hfail c); lia).
    now rewrite andb_false_r, orb_false_r.
Qed.

Lemma do_reservation_bounds_witness :
  our_isolated_cpus
    (fst (hyp_core_ctl_do_reservation 4 15 always_fail
            (mk_hcd false true 14 2 0))) = 2.
Proof.
  apply (do_reservation_bounds 4 15 always_fail (mk_hcd false true 14 2 0)).
  intros c. reflexivity.
Defined.

(** X4: after an undoing of the reservation, the next one calls unisolate
    on exactly the CPUs whose call failed in the first, whatever it
    returns this time; when no call failed, the next one calls nothing. *)
Theorem undo_reservation_retries_failed nr unis unis' h :
  snd (hyp_core_ctl_undo_reservation nr unis'
         (fst (hyp_core_ctl_undo_reservation nr unis h))) =
  map (fun c => Unisolate c (unis' c))
      (filter (fun c => (unis c <? 0)%Z)
              (cpumask_cpus nr (our_isolated_cpus h))) /\
  ((forall c, (0 <= unis c)%Z) ->
   snd (hyp_core_ctl_undo_reservation nr unis'
          (fst (hyp_core_ctl_undo_reservation nr unis h))) = []).
Proof.
  assert (Hcalls :
    snd (hyp_core_ctl_undo_reservation nr unis'
           (fst (hyp_core_ctl_undo_reservation nr unis h))) =
    map (fun c => Unisolate c (unis' c))
        (filter (fun c => (unis c <? 0)%Z)
                (cpumask_cpus nr (our_isolated_cpus h)))).
  { rewrite undo_reservation_trace, unisolate_calls_cpus. f_equal.
    unfold cpumask_cpus. rewrite filter_twice.
    apply filter_ext_in. intros c Hc. apply in_map_iff in Hc.
    destruct Hc as (i & <- & Hi). apply in_seq in Hi.
    rewrite undo_reservation_isolated.
    rewrite (proj2 (N.ltb_lt (N.of_nat i) (N.of_nat nr))) by lia.
    cbn [andb].
    destruct (N.testbit (our_isolated_cpus h) (N.of_nat i)); cbn;
      [|reflexivity].
    destruct (Z.leb_spec 0 (unis (N.of_nat i))),
      (Z.ltb_spec (unis (N.of_nat i)) 0); try reflexivity; lia. }
  split; [exact Hcalls|].
  intros Hok. rewrite Hcalls. clear Hcalls.
  replace (filter (fun c => (unis c <? 0)%Z)
             (cpumask_cpus nr (our_isolated_cpus h))) with (@nil N);
    [reflexivity|].
  symmetry. induction (cpumask_cpus nr (our_isolated_cpus h)) as [|c l IH];
    [reflexivity|].
  cbn. replace (unis c <? 0)%Z with false by (specialize (Hok c); lia).
  exact IH.
Qed.

Lemma undo_reservation_retries_failed_witness :
  snd (hyp_core_ctl_undo_reservation 4 fail_on_2
         (fst (hyp_core_ctl_undo_reservation 4 always_ok
                 (mk_hcd false false 12 12 12)))) = [].
Proof.
  apply (undo_reservation_retries_failed 4 always_ok fail_on_2
           (mk_hcd false false 12 12 12)).
  intros c. vm_compute. discriminate.
Defined.

(** ** Cycles of the worker and hotplug transitions *)

Lemma run_app nr s ops ops' :
  run nr s (ops ++ ops') = run nr (run nr s ops) ops'.
Proof.
  unfold run. apply fold_left_app.
Qed.

Lemma run_reserve_cpus nr s ops :
  reserve_cpus (hcd (run nr s ops)) = reserve_cpus (hcd s).
Proof.
  induction ops as [|o ops IH] using rev_ind; [reflexivity|].
  now rewrite run_snoc, run_op_reserve_cpus.
Qed.

Lemma worker_cycle_disabled_from nr s iso unis :
  masks_nested nr (hcd s) ->
  reservation_enabled (hcd s) = false ->
  (forall c, (0 <= unis c)%Z) ->
  run_op nr s (WorkerCycle iso unis) =
  mk_system
    (mk_hcd false false (reserve_cpus (hcd s)) 0
            (final_reserved_cpus (hcd s)))
    (cpu_online_mask s)
    (log s ++ map (fun c => Unisolate c (unis c))
                  (cpumask_cpus nr (our_isolated_cpus (hcd s)))).
Proof.
  intros Hn He Hok. destruct s as [h online lg]. cbn [hcd] in *.
  cbn [run_op hcd cpu_online_mask log].
  unfold hyp_core_ctl_thread_cycle.
  cbn [reservation_enabled set_pending]. rewrite He.
  rewrite (surjective_pairing (hyp_core_ctl_undo_reservation _ _ _)).
  rewrite undo_reservation_trace, unisolate_calls_cpus.
  cbn [our_isolated_cpus set_pending]. f_equal.
  destruct (undo_reservation_frame nr unis (set_pending false h))
    as (Hp & Hen & Hr & Hf).
  cbn [pending reservation_enabled reserve_cpus final_reserved_cpus
       set_pending] in Hp, Hen, Hr, Hf.
  apply hcd_ext; cbn [pending reservation_enabled reserve_cpus
                        our_isolated_cpus final_reserved_cpus];
    try assumption.
  - now rewrite Hen.
  - apply N.bits_inj. intros c.
    rewrite undo_reservation_isolated, N.bits_0.
    cbn [our_isolated_cpus set_pending].
    destruct (N.testbit (our_isolated_cpus h) c) eqn:Hc; [|reflexivity].
    destruct (masks_nested_isolated nr h c Hn Hc) as [_ Hlt].
    rewrite (proj2 (N.ltb_lt _ _) Hlt).
    replace (0 <=? unis c)%Z with true by (specialize (Hok c); lia).
    reflexivity.
Qed.

(** X5: in a state reached from the initial one with the reservation
    disabled, one cycle of the worker in which no unisolate call fails
    calls unisolate on each CPU of [our_isolated_cpus], in ascending
    order, and leaves [our_isolated_cpus] empty and [pending] clear;
    [final_reserved_cpus] keeps its value. *)
Theorem worker_cycle_disabled_releases_all nr reserve online ops iso unis :
  reservation_enabled (hcd (run nr (initial reserve online) ops)) = false ->
  (forall c, (0 <= unis c)%Z) ->
  run nr (initial reserve online) (ops ++ [WorkerCycle iso unis]) =
  mk_system
    (mk_hcd false false reserve 0
       (final_reserved_cpus (hcd (run nr (initial reserve online) ops))))
    (cpu_online_mask (run nr (initial reserve online) ops))
    (log (run nr (initial reserve online) ops)
     ++ map (fun c => Unisolate c (unis c))
         (cpumask_cpus nr
            (our_isolated_cpus
               (hcd (run nr (initial reserve online) ops))))).
Proof.
  intros He Hok. rewrite run_snoc.
  rewrite (worker_cycle_disabled_from nr _ iso unis); auto.
  - now rewrite run_reserve_cpus.
  - apply run_masks_nested, initial_masks_nested.
Qed.

Lemma worker_cycle_disabled_releases_all_witness :
  run 4 (initial 12 15)
    ([SetEnabled true; WorkerCycle always_ok always_ok; SetEnabled false]
     ++ [WorkerCycle always_fail always_ok]) =
  mk_system (mk_hcd false false 12 0 12) 15
    ([WakeUpProcess; Isolate 2 0%Z; Isolate 3 0%Z; WakeUpProcess]
     ++ [Unisolate 2 0%Z; Unisolate 3 0%Z]).
Proof.
  apply (worker_cycle_disabled_releases_all 4 12 15
           [SetEnabled true; WorkerCycle always_ok always_ok;
            SetEnabled false] always_fail always_ok).
  - reflexivity.
  - intros c. vm_compute. discriminate.
Defined.

(** X6: a CPU of [reserve_cpus] that is offline during a cycle of the
    reservation is put in [final_reserved_cpus]; when it comes online the
    online callback therefore sets [pending] and wakes the worker, and the
    cycle that follows calls isolate on it and, when the call succeeds,
    has it in [our_isolated_cpus]. *)
Theorem offline_reserved_cpu_isolated_on_return
    nr online online' iso iso' unis' h c :
  reservation_enabled h = true ->
  c < N.of_nat nr ->
  N.testbit (reserve_cpus h) c = true ->
  N.testbit (our_isolated_cpus h) c = false ->
  N.testbit online c = false ->
  N.testbit online' c = true ->
  N.testbit
    (final_reserved_cpus
       (fst (hyp_core_ctl_do_reservation nr online iso h))) c = true /\
  hyp_core_ctl_hp_online
    (Some (fst (hyp_core_ctl_do_reservation nr online iso h))) c =
  (0%Z,
   Some (set_pending true
           (fst (hyp_core_ctl_do_reservation nr online iso h))),
   [WakeUpProcess]) /\
  In (Isolate c (iso' c))
     (snd (hyp_core_ctl_thread_cycle nr false online' iso' unis'
             (set_pending true
                (fst (hyp_core_ctl_do_reservation nr online iso h))))) /\
  N.testbit
    (our_isolated_cpus
       (fst (hyp_core_ctl_thread_cycle nr false online' iso' unis'
               (set_pending true
                  (fst (hyp_core_ctl_do_reservation nr online iso h))))))
    c = (0 <=? iso' c)%Z.
Proof.
  intros He Hlt Hr Hi Hoff Hon.
  destruct (do_reservation_frame nr online iso h) as (_ & He1 & Hr1).
  cbv zeta in He1, Hr1.
  assert (Hi1 : N.testbit
                  (our_isolated_cpus
                     (fst (hyp_core_ctl_do_reservation nr online iso h))) c =
                false).
  { rewrite do_reservation_isolated, Hi, Hoff. cbn.
    now rewrite andb_false_r. }
  assert (Hf1 : N.testbit
                  (final_reserved_cpus
                     (fst (hyp_core_ctl_do_reservation nr online iso h))) c =
                true).
  { rewrite do_reservation_final, Hi1, Hr, Hi, Hoff.
    now rewrite (proj2 (N.ltb_lt _ _) Hlt). }
  split; [exact Hf1|]. split.
  { unfold hyp_core_ctl_hp_online, cpumask_test_cpu.
    now rewrite He1, He, Hf1. }
  unfold hyp_core_ctl_thread_cycle.
  cbn [reservation_enabled set_pending]. rewrite He1, He.
  split.
  - rewrite do_reservation_trace. apply in_isolate_calls.
    exists c. repeat split; auto.
    cbn [reserve_cpus our_isolated_cpus set_pending].
    unfold cpumask_andnot.
    now rewrite N.ldiff_spec, Hr1, Hr, Hi1.
  - rewrite do_reservation_isolated.
    cbn [reserve_cpus our_isolated_cpus set_pending].
    now rewrite Hi1, Hr1, Hr, Hon, (proj2 (N.ltb_lt _ _) Hlt).
Qed.

Lemma offline_reserved_cpu_isolated_on_return_witness :
  N.testbit
    (our_isolated_cpus
       (fst (hyp_core_ctl_thread_cycle 4 false 15 always_ok always_ok
               (set_pending true
                  (fst (hyp_core_ctl_do_reservation 4 7 always_ok
                          (mk_hcd false true 12 0 0))))))) 3 = true.
Proof.
  apply (offline_reserved_cpu_isolated_on_return 4 7 15 always_ok always_ok
           always_ok (mk_hcd false true 12 0 0) 3); reflexivity.
Defined.

Lemma hotplug_round_trip_from nr s c iso unis :
  masks_nested nr (hcd s) ->
  reservation_enabled (hcd s) = true ->
  N.testbit (our_isolated_cpus (hcd s)) c = true ->
  run nr s [CpuOffline c; CpuOnline c] =
  mk_system
    (mk_hcd true true (reserve_cpus (hcd s))
       (N.clearbit (our_isolated_cpus (hcd s)) c)
       (final_reserved_cpus (hcd s)))
    (N.setbit (N.clearbit (cpu_online_mask s) c) c)
    (log s ++ [UnisolateUnlocked c; WakeUpProcess]) /\
  (exists tr,
      log (run nr s [CpuOffline c; CpuOnline c; WorkerCycle iso unis]) =
      log s ++ [UnisolateUnlocked c; WakeUpProcess] ++ tr /\
      In (Isolate c (iso c)) tr) /\
  N.testbit
    (our_isolated_cpus
       (hcd (run nr s [CpuOffline c; CpuOnline c; WorkerCycle iso unis])))
    c = (0 <=? iso c)%Z /\
  pending
    (hcd (run nr s [CpuOffline c; CpuOnline c; WorkerCycle iso unis])) =
  false.
Proof.
  intros Hn He Hc. destruct s as [h online lg]. cbn [hcd] in *.
  pose proof (proj1 (masks_nested_bits nr h) Hn) as (Hif & Hfr & Hlt).
  assert (Hfc : N.testbit (final_reserved_cpus h) c = true) by auto.
  assert (Hrc : N.testbit (reserve_cpus h) c = true) by auto.
  assert (Hc_lt : c < N.of_nat nr) by auto.
  assert (H2 :
    run nr (mk_system h online lg) [CpuOffline c; CpuOnline c] =
    mk_system
      (mk_hcd true true (reserve_cpus h)
         (N.clearbit (our_isolated_cpus h) c) (final_reserved_cpus h))
      (N.setbit (N.clearbit online c) c)
      (lg ++ [UnisolateUnlocked c; WakeUpProcess])).
  { cbn [run fold_left run_op hcd cpu_online_mask log].
    unfold hyp_core_ctl_hp_offline, cpumask_test_and_clear_cpu.
    rewrite He, Hc. cbn [negb hcd cpu_online_mask log].
    unfold hyp_core_ctl_hp_online, cpumask_test_cpu.
    cbn [reservation_enabled final_reserved_cpus set_our_isolated_cpus].
    rewrite He, Hfc. cbn [negb].
    unfold set_pending, set_our_isolated_cpus, cpumask_clear_cpu.
    cbn [pending reservation_enabled reserve_cpus our_isolated_cpus
         final_reserved_cpus].
    rewrite He, <- app_assoc. reflexivity. }
  split; [exact H2|].
  change [CpuOffline c; CpuOnline c; WorkerCycle iso unis]
    with ([CpuOffline c; CpuOnline c] ++ [WorkerCycle iso unis]).
  rewrite run_snoc, H2.
  cbn [run_op hcd cpu_online_mask log].
  unfold hyp_core_ctl_thread_cycle.
  cbn [reservation_enabled set_pending pending reserve_cpus
       our_isolated_cpus final_reserved_cpus].
  rewrite (surjective_pairing (hyp_core_ctl_do_reservation _ _ _ _)).
  cbn [hcd log].
  assert (Hon : N.testbit (N.setbit (N.clearbit online c) c) c = true)
    by apply N.setbit_eq.
  assert (Hcl : N.testbit (N.clearbit (our_isolated_cpus h) c) c = false)
    by apply N.clearbit_eq.
  split; [|split].
  - eexists. split.
    + rewrite <- app_assoc. reflexivity.
    + rewrite do_reservation_trace. apply in_isolate_calls.
      exists c. repeat split; auto.
      cbn [reserve_cpus our_isolated_cpus set_pending]. unfold cpumask_andnot.
      now rewrite N.ldiff_spec, Hrc, Hcl.
  - rewrite do_reservation_isolated.
    cbn [reserve_cpus our_isolated_cpus set_pending].
    now rewrite Hcl, Hrc, Hon, (proj2 (N.ltb_lt _ _) Hc_lt).
  - match goal with
    | |- context [hyp_core_ctl_do_reservation ?n ?a ?b ?d] =>
        destruct (do_reservation_frame n a b d) as (-> & _)
    end. reflexivity.
Qed.

(** X7: in a state reached from the initial one with the reservation
    enabled, when a CPU of [our_isolated_cpus] goes offline and comes back
    online, the offline callback unisolates it and takes it out of
    [our_isolated_cpus], the online callback finds it in
    [final_reserved_cpus], sets [pending] and wakes the worker, and the
    cycle of the worker that follows calls isolate on it, has it in
    [our_isolated_cpus] again when the call succeeds, and clears
    [pending]. *)
Theorem hotplug_round_trip nr reserve online ops c iso unis :
  reservation_enabled (hcd (run nr (initial reserve online) ops)) = true ->
  N.testbit
    (our_isolated_cpus (hcd (run nr (initial reserve online) ops))) c =
  true ->
  run nr (initial reserve online) (ops ++ [CpuOffline c; CpuOnline c]) =
  mk_system
    (mk_hcd true true reserve
       (N.clearbit
          (our_isolated_cpus (hcd (run nr (initial reserve online) ops))) c)
       (final_reserved_cpus (hcd (run nr (initial reserve online) ops))))
    (N.setbit
       (N.clearbit
          (cpu_online_mask (run nr (initial reserve online) ops)) c) c)
    (log (run nr (initial reserve online) ops)
     ++ [UnisolateUnlocked c; WakeUpProcess]) /\
  (exists tr,
      log (run nr (initial reserve online)
             (ops ++ [CpuOffline c; CpuOnline c; WorkerCycle iso unis])) =
      log (run nr (initial reserve online) ops)
      ++ [UnisolateUnlocked c; WakeUpProcess] ++ tr /\
      In (Isolate c (iso c)) tr) /\
  N.testbit
    (our_isolated_cpus
       (hcd (run nr (initial reserve online)
               (ops ++ [CpuOffline c; CpuOnline c; WorkerCycle iso unis]))))
    c = (0 <=? iso c)%Z /\
  pending
    (hcd (run nr (initial reserve online)
            (ops ++ [CpuOffline c; CpuOnline c; WorkerCycle iso unis]))) =
  false.
Proof.
  intros He Hc. rewrite !run_app.
  pose proof (reachable_masks := run_masks_nested nr (initial reserve online)
                ops (initial_masks_nested nr reserve online)).
  destruct (hotplug_round_trip_from nr _ c iso unis reachable_masks He Hc)
    as (H2 & Hlog & Hbit & Hp).
  rewrite run_reserve_cpus in H2. auto.
Qed.

Lemma hotplug_round_trip_witness :
  run 4 (initial 12 15)
    ([SetEnabled true; WorkerCycle always_ok always_ok]
     ++ [CpuOffline 3; CpuOnline 3]) =
  mk_system (mk_hcd true true 12 4 12) 15
    ([WakeUpProcess; Isolate 2 0%Z; Isolate 3 0%Z]
     ++ [UnisolateUnlocked 3; WakeUpProcess]) /\
  N.testbit
    (our_isolated_cpus
       (hcd (run 4 (initial 12 15)
               ([SetEnabled true; WorkerCycle always_ok always_ok]
                ++ [CpuOffline 3; CpuOnline 3;
                    WorkerCycle always_ok always_ok])))) 3 = true.
Proof.
  destruct (hotplug_round_trip 4 12 15
              [SetEnabled true; WorkerCycle always_ok always_ok] 3
              always_ok always_ok) as (H2 & _ & Hb & _);
    [reflexivity | reflexivity |].
  split; [exact H2 | exact Hb].
Defined.

(** X8: a CPU whose isolate call failed is not in
    [final_reserved_cpus] after that cycle, so its own going offline and
    coming back online wakes nobody: the offline callback calls nothing and
    leaves the masks as they were, and the online callback returns the
    state untouched. *)
Theorem failed_isolate_not_retried_by_hotplug nr online iso h c :
  reservation_enabled h = true ->
  N.testbit (our_isolated_cpus h) c = false ->
  N.testbit online c = true ->
  (iso c < 0)%Z ->
  N.testbit
    (final_reserved_cpus
       (fst (hyp_core_ctl_do_reservation nr online iso h))) c = false /\
  hyp_core_ctl_hp_offline
    (Some (fst (hyp_core_ctl_do_reservation nr online iso h))) c =
  (0%Z, Some (fst (hyp_core_ctl_do_reservation nr online iso h)), []) /\
  hyp_core_ctl_hp_online
    (Some (fst (hyp_core_ctl_do_reservation nr online iso h))) c =
  (0%Z, Some (fst (hyp_core_ctl_do_reservation nr online iso h)), []).
Proof.
  intros He Hi Hon Hneg.
  destruct (do_reservation_frame nr online iso h) as (_ & He1 & _).
  cbv zeta in He1.
  assert (Hi1 : N.testbit
                  (our_isolated_cpus
                     (fst (hyp_core_ctl_do_reservation nr online iso h))) c =
                false).
  { rewrite do_reservation_isolated, Hi.
    replace (0 <=? iso c)%Z with false by lia.
    now rewrite andb_false_r. }
  assert (Hf1 : N.testbit
                  (final_reserved_cpus
                     (fst (hyp_core_ctl_do_reservation nr online iso h))) c =
                false).
  { rewrite do_reservation_final, Hi1, Hon. cbn.
    now rewrite andb_false_r. }
  split; [exact Hf1|]. split.
  - unfold hyp_core_ctl_hp_offline, cpumask_test_and_clear_cpu.
    rewrite He1, He, Hi1. cbn [negb]. repeat f_equal.
    apply hcd_ext; try reflexivity.
    cbn [our_isolated_cpus set_our_isolated_cpus].
    apply N.bits_inj. intros j. rewrite N.clearbit_eqb.
    destruct (N.eqb_spec c j) as [<-|]; cbn [negb andb].
    + now rewrite Hi1.
    + apply andb_true_r.
  - unfold hyp_core_ctl_hp_online, cpumask_test_cpu.
    now rewrite He1, He, Hf1.
Qed.

Lemma failed_isolate_not_retried_by_hotplug_witness :
  hyp_core_ctl_hp_online
    (Some (fst (hyp_core_ctl_do_reservation 4 15 fail_on_2
                  (mk_hcd false true 12 0 0)))) 2 =
  (0%Z,
   Some (fst (hyp_core_ctl_do_reservation 4 15 fail_on_2
                (mk_hcd false true 12 0 0))), []).
Proof.
  apply (failed_isolate_not_retried_by_hotplug 4 15 fail_on_2
           (mk_hcd false true 12 0 0) 2); reflexivity.
Defined.

Lemma forallb_map_const {A B : Type} (p : B -> bool) (f : A -> B)
    (l : list A) :
  (forall x, p (f x) = true) -> forallb p (map f l) = true.
Proof.
  intros H. induction l as [|a l IH]; [reflexivity|].
  cbn. now rewrite H, IH.
Qed.

(** X9: a turn of the worker's loop always clears [pending] and never
    changes [reservation_enabled] or [reserve_cpus].  When asked to stop it
    does nothing else.  Otherwise, with the reservation enabled it makes
    only isolate calls and only adds to [our_isolated_cpus]; with the
    reservation disabled it makes only unisolate calls, only removes from
    [our_isolated_cpus] and leaves [final_reserved_cpus] alone. *)
Theorem thread_cycle_dispatch nr stop online iso unis h :
  pending
    (fst (hyp_core_ctl_thread_cycle nr stop online iso unis h)) = false /\
  reservation_enabled
    (fst (hyp_core_ctl_thread_cycle nr stop online iso unis h)) =
  reservation_enabled h /\
  reserve_cpus
    (fst (hyp_core_ctl_thread_cycle nr stop online iso unis h)) =
  reserve_cpus h /\
  hyp_core_ctl_thread_cycle nr true online iso unis h =
  (set_pending false h, []) /\
  forallb (event_of_engine (reservation_enabled h))
    (snd (hyp_core_ctl_thread_cycle nr stop online iso unis h)) = true /\
  (if reservation_enabled h then
     cpumask_subset
       (our_isolated_cpus h)
       (our_isolated_cpus
          (fst (hyp_core_ctl_thread_cycle nr stop online iso unis h)))
   else
     cpumask_subset
       (our_isolated_cpus
          (fst (hyp_core_ctl_thread_cycle nr stop online iso unis h)))
       (our_isolated_cpus h) /\
     final_reserved_cpus
       (fst (hyp_core_ctl_thread_cycle nr stop online iso unis h)) =
     final_reserved_cpus h).
Proof.
  assert (Hrefl : forall m, cpumask_subset m m).
  { intros m. apply cpumask_subset_spec. auto. }
  unfold hyp_core_ctl_thread_cycle.
  cbn [reservation_enabled set_pending].
  destruct stop.
  { cbn. repeat split; auto. destruct (reservation_enabled h); auto. }
  destruct (reservation_enabled h) eqn:He.
  - destruct (do_reservation_frame nr online iso (set_pending false h))
      as (Hp & Hen & Hr).
    cbn [pending reservation_enabled reserve_cpus set_pending]
      in Hp, Hen, Hr.
    split; [exact Hp|]. split; [now rewrite Hen|]. split; [exact Hr|].
    split; [reflexivity|]. split.
    + rewrite do_reservation_trace, isolate_calls_cpus.
      now apply forallb_map_const.
    + apply cpumask_subset_spec. intros c Hc.
      rewrite do_reservation_isolated. cbn [our_isolated_cpus set_pending].
      now rewrite Hc.
  - destruct (undo_reservation_frame nr unis (set_pending false h))
      as (Hp & Hen & Hr & Hf).
    cbn [pending reservation_enabled reserve_cpus final_reserved_cpus
         set_pending] in Hp, Hen, Hr, Hf.
    split; [exact Hp|]. split; [now rewrite Hen|]. split; [exact Hr|].
    split; [reflexivity|]. split; [|split; [|exact Hf]].
    + rewrite undo_reservation_trace, unisolate_calls_cpus.
      now apply forallb_map_const.
    + apply cpumask_subset_spec. intros c.
      rewrite undo_reservation_isolated. cbn [our_isolated_cpus set_pending].
      intros H. apply andb_true_iff in H. tauto.
Qed.

(** ** The enable attribute *)

Lemma ssize_of_size_small (count : Z) :
  (0 <= count < 2 ^ 63)%Z -> ssize_of_size count = count.
Proof.
  intros H. unfold ssize_of_size. cbv zeta.
  rewrite Z.mod_small by lia.
  destruct (Z.ltb_spec count (2 ^ 63)); [reflexivity | lia].
Qed.

Lemma ssize_of_size_range (count : Z) :
  (- 2 ^ 63 <= ssize_of_size count < 2 ^ 63)%Z.
Proof.
  unfold ssize_of_size. cbv zeta.
  pose proof (Z.mod_pos_bound count (2 ^ 64) ltac:(lia)) as Hm.
  destruct (Z.ltb_spec (count mod 2 ^ 64) (2 ^ 63)); lia.
Qed.

(** X10: a write that [kstrtobool] rejects returns [-EINVAL], touches
    neither [the_hcd] nor the worker, and does so even when [the_hcd] is
    [NULL].  A write of a boolean to the initialised controller returns
    [count] converted to [ssize_t], leaves the three masks alone, wakes the
    worker exactly when the value differs from the flag, and is read back
    by [enable_show] as the digit of that value; writing the same text
    again changes nothing and wakes nobody.  The value returned is [count]
    itself when [count] is below 2^63; it is always a 64-bit signed value,
    and the largest [size_t] comes back as -1. *)
Theorem enable_store_outcomes kstrtobool buf count h :
  match kstrtobool buf with
  | None =>
      forall the_hcd,
        enable_store kstrtobool the_hcd buf count =
        Done ((- EINVAL)%Z, the_hcd, [])
  | Some x =>
      exists h',
        enable_store kstrtobool (Some h) buf count =
        Done (ssize_of_size count, Some h',
              if Bool.eqb x (reservation_enabled h) then []
              else [WakeUpProcess]) /\
        reservation_enabled h' = x /\
        reserve_cpus h' = reserve_cpus h /\
        our_isolated_cpus h' = our_isolated_cpus h /\
        final_reserved_cpus h' = final_reserved_cpus h /\
        enable_show (Some h') =
        (2%Z, ((if x then "1" else "0") ++ newline)%string) /\
        enable_store kstrtobool (Some h') buf count =
        Done (ssize_of_size count, Some h', [])
  end /\
  ((0 <= count < 2 ^ 63)%Z -> ssize_of_size count = count) /\
  (- 2 ^ 63 <= ssize_of_size count < 2 ^ 63)%Z /\
  ssize_of_size (2 ^ 64 - 1) = (-1)%Z.
Proof.
  split; [|split; [apply ssize_of_size_small|]];
    [|split; [apply ssize_of_size_range | reflexivity]].
  unfold enable_store.
  destruct (kstrtobool buf) as [x|]; [|reflexivity].
  unfold hyp_core_ctl_enable.
  destruct (Bool.eqb x (reservation_enabled h)) eqn:E.
  - exists h. apply Bool.eqb_prop in E. subst x.
    rewrite Bool.eqb_reflx. repeat split.
    unfold enable_show. destruct (reservation_enabled h); reflexivity.
  - eexists. split; [reflexivity|].
    cbn [reservation_enabled reserve_cpus our_isolated_cpus
         final_reserved_cpus set_pending set_reservation_enabled].
    rewrite Bool.eqb_reflx. repeat split.
    unfold enable_show. cbn. destruct x; reflexivity.
Qed.

Lemma enable_store_outcomes_witness :
  enable_store kstrtobool_digits (Some (mk_hcd false false 12 0 0)) "1" 2 =
  Done (2%Z, Some (mk_hcd true true 12 0 0), [WakeUpProcess]) /\
  enable_store kstrtobool_digits None "2" 2 =
  Done ((-22)%Z, None, []).
Proof.
  split.
  - destruct (enable_store_outcomes kstrtobool_digits "1" 2
                (mk_hcd false false 12 0 0)) as ((h' & Hs & _) & _).
    rewrite Hs. vm_compute in Hs. injection Hs as <-. reflexivity.
  - exact (proj1 (enable_store_outcomes kstrtobool_digits "2" 2
                    (mk_hcd false false 12 0 0)) None).
Defined.

(** ** Initialisation *)

(** X11: [hyp_core_ctl_init] publishes [the_hcd] exactly when the
    allocation, the parse of the configured list, the start of the thread
    and the creation of the sysfs group all succeed; it then returns 0,
    has registered both hotplug callbacks, and the published state is the
    one the reachable states start from: reservation disabled, nothing
    pending, [reserve_cpus] as parsed and both output masks empty, so that
    the hotplug callbacks do nothing until the reservation is enabled.  On
    every failure [the_hcd] stays [NULL], no callback is registered, the
    allocated memory is freed exactly when it had been obtained and the
    thread is stopped exactly when it had been started. *)
Theorem init_publishes_or_cleans_up kzalloc_ok ret reserve kthread_run sysfs :
  snd (fst (Initcall.hyp_core_ctl_init kzalloc_ok (ret, reserve)
              kthread_run sysfs)) =
  (if kzalloc_ok && (0 <=? ret)%Z
      && match kthread_run with
         | Initcall.TaskStarted => (0 <=? sysfs)%Z
         | Initcall.TaskErr _ => false
         end
   then Some (hyp_core_ctl_init reserve) else None) /\
  match snd (fst (Initcall.hyp_core_ctl_init kzalloc_ok (ret, reserve)
                    kthread_run sysfs)) with
  | Some h =>
      fst (fst (Initcall.hyp_core_ctl_init kzalloc_ok (ret, reserve)
                  kthread_run sysfs)) = 0%Z /\
      snd (Initcall.hyp_core_ctl_init kzalloc_ok (ret, reserve)
             kthread_run sysfs) =
      [Initcall.Kzalloc; Initcall.CpulistParse; Initcall.KthreadRun;
       Initcall.SchedSetschedulerNocheck; Initcall.SysfsCreateGroup;
       Initcall.CpuhpSetupOnline; Initcall.CpuhpSetupDead] /\
      forall cpu,
        hyp_core_ctl_hp_offline (Some h) cpu = (0%Z, Some h, []) /\
        hyp_core_ctl_hp_online (Some h) cpu = (0%Z, Some h, [])
  | None =>
      ~ In Initcall.CpuhpSetupOnline
          (snd (Initcall.hyp_core_ctl_init kzalloc_ok (ret, reserve)
                  kthread_run sysfs)) /\
      ~ In Initcall.CpuhpSetupDead
          (snd (Initcall.hyp_core_ctl_init kzalloc_ok (ret, reserve)
                  kthread_run sysfs)) /\
      (In Initcall.Kfree
          (snd (Initcall.hyp_core_ctl_init kzalloc_ok (ret, reserve)
                  kthread_run sysfs)) <-> kzalloc_ok = true) /\
      (In Initcall.KthreadStop
          (snd (Initcall.hyp_core_ctl_init kzalloc_ok (ret, reserve)
                  kthread_run sysfs)) <->
       kzalloc_ok = true /\ (0 <= ret)%Z /\
       kthread_run = Initcall.TaskStarted)
  end.
Proof.
  unfold Initcall.hyp_core_ctl_init.
  destruct kzalloc_ok; cbn [negb andb];
    [|cbn; intuition (try discriminate)].
  destruct (Z.ltb_spec ret 0) as [Hret|Hret].
  { replace (0 <=? ret)%Z with false by lia. cbn.
    intuition (try discriminate; try lia). }
  replace (0 <=? ret)%Z with true by lia. cbn [andb].
  destruct kthread_run as [e|];
    [cbn; intuition (try discriminate)|].
  destruct (Z.ltb_spec sysfs 0) as [Hs|Hs].
  { replace (0 <=? sysfs)%Z with false by lia. cbn.
    intuition (try discriminate; try lia). }
  replace (0 <=? sysfs)%Z with true by lia. cbn.
  repeat split.
Qed.
